(** * A shallow embedding of the RAG pre-processing scripts

    [chunk_script.py] (the single-process splitter, the record normaliser and
    the file classifier) and the row function of [rag_distributed_etl_job.py]
    (parsing placeholder and redaction), with the properties the
    specification states about them. *)

From Stdlib Require Import Ascii String ZArith NArith List Bool Lia DecimalN FinFun.
Import ListNotations.
Local Open Scope Z_scope.

(** * Python text *)

(** A Python [str] is a sequence of Unicode code points. *)
Definition codepoint := N.
Definition pystr := list codepoint.

(** The text of an ASCII literal of the source. *)
Definition lit (s : string) : pystr := map N_of_ascii (list_ascii_of_string s).

Fixpoint str_eqb (a b : pystr) : bool :=
  match a, b with
  | [], [] => true
  | x :: a', y :: b' => N.eqb x y && str_eqb a' b'
  | _, _ => false
  end.

(** [s.startswith(p)] *)
Fixpoint startswith (s p : pystr) {struct p} : bool :=
  match p, s with
  | [], _ => true
  | x :: p', y :: s' => N.eqb x y && startswith s' p'
  | _ :: _, [] => false
  end.

(** [s.endswith(p)] *)
Definition endswith (s p : pystr) : bool := startswith (rev s) (rev p).

(** [s.endswith((p1, p2, ...))]: some element of the tuple is a suffix. *)
Definition endswith_any (s : pystr) (ps : list pystr) : bool :=
  existsb (endswith s) ps.

(** [p in s] on strings: [p] occurs in [s] as a substring. *)
Fixpoint contains (s p : pystr) : bool :=
  startswith s p ||
  match s with
  | [] => false
  | _ :: s' => contains s' p
  end.

(** [x in [a, b, ...]] on a list of strings. *)
Definition str_in (x : pystr) (l : list pystr) : bool := existsb (str_eqb x) l.

(** [s.replace(old, new)]: every occurrence, left to right, without overlap.
    [skip] counts the code points of a matched occurrence still to drop.  With
    an empty [old] Python puts [new] before every code point and at the end. *)
Fixpoint replace_from (skip : nat) (old new s : pystr) : pystr :=
  match s with
  | [] => []
  | c :: s' =>
      match skip with
      | S k => replace_from k old new s'
      | O =>
          if startswith s old
          then new ++ replace_from (length old - 1) old new s'
          else c :: replace_from O old new s'
      end
  end.

Definition replace (s old new : pystr) : pystr :=
  match old with
  | [] => new ++ flat_map (fun c => c :: new) s
  | _ :: _ => replace_from O old new s
  end.

(** [sep.join(parts)] *)
Fixpoint join (sep : pystr) (parts : list pystr) : pystr :=
  match parts with
  | [] => []
  | [p] => p
  | p :: rest => p ++ sep ++ join sep rest
  end.

(** [s[:n]] for a non-negative [n]. *)
Definition slice_to (n : nat) (s : pystr) : pystr := firstn n s.

(** ** UTF-8 *)

(** Lone surrogates have no UTF-8 encoding: [str.encode('utf-8')] raises
    [UnicodeEncodeError] on them.  [json.loads] does return them, from an
    escape such as [\ud800]. *)
Definition is_surrogate (c : codepoint) : bool :=
  (N.leb 0xD800 c && N.leb c 0xDFFF)%N.

Definition utf8_width (c : codepoint) : Z :=
  if N.ltb c 0x80 then 1
  else if N.ltb c 0x800 then 2
  else if N.ltb c 0x10000 then 3
  else 4.

Fixpoint utf8_len (s : pystr) : Z :=
  match s with
  | [] => 0
  | c :: s' => utf8_width c + utf8_len s'
  end.

Definition encodable (s : pystr) : bool :=
  forallb (fun c => negb (is_surrogate c)) s.

(** [len(s.encode('utf-8'))]; [None] stands for [UnicodeEncodeError]. *)
Definition encoded_len (s : pystr) : option Z :=
  if encodable s then Some (utf8_len s) else None.

(** ** Integers as text *)

Fixpoint uint_str (d : Decimal.uint) : pystr :=
  match d with
  | Decimal.Nil => []
  | Decimal.D0 d => 48%N :: uint_str d
  | Decimal.D1 d => 49%N :: uint_str d
  | Decimal.D2 d => 50%N :: uint_str d
  | Decimal.D3 d => 51%N :: uint_str d
  | Decimal.D4 d => 52%N :: uint_str d
  | Decimal.D5 d => 53%N :: uint_str d
  | Decimal.D6 d => 54%N :: uint_str d
  | Decimal.D7 d => 55%N :: uint_str d
  | Decimal.D8 d => 56%N :: uint_str d
  | Decimal.D9 d => 57%N :: uint_str d
  end.

(** [str(z)] for an [int]. *)
Definition str_int (z : Z) : pystr :=
  match Z.to_int z with
  | Decimal.Pos d => uint_str d
  | Decimal.Neg d => 45%N :: uint_str d
  end.

(** [f"{z:03d}"]: sign first, then zeros up to a total width of three. *)
Definition format_03d (z : Z) : pystr :=
  let sign := if z <? 0 then [45%N] else [] in
  let digits := uint_str (N.to_uint (Z.abs_N z)) in
  sign ++ repeat 48%N (3 - length sign - length digits) ++ digits.

(** Lexicographic order of strings by code point, Python's [a < b]. *)
Fixpoint str_ltb (a b : pystr) : bool :=
  match a, b with
  | _, [] => false
  | [], _ :: _ => true
  | x :: a', y :: b' => N.ltb x y || (N.eqb x y && str_ltb a' b')
  end.

(** ** Paths *)

(** [os.path.basename(p)]: what follows the last slash. *)
Definition basename (p : pystr) : pystr :=
  fold_left (fun acc c => if N.eqb c 47 then [] else acc ++ [c]) p [].

(** [os.path.join(a, b)] of [posixpath], for two components. *)
Definition path_join (a b : pystr) : pystr :=
  if startswith b [47%N] then b
  else match rev a with
       | [] => b
       | c :: _ => if N.eqb c 47 then a ++ b else a ++ 47%N :: b
       end.

(** * JSON values *)

(** A [float] of the source is a binary64 value, kept as its 64 bits; the
    program only ever turns one into text. *)
Inductive pyfloat := Float64 (bits : Z).

(** What [json.loads] returns.  A dict keeps its items in insertion order,
    each key once. *)
#[warnings="-register-all"]
Inductive json :=
| JNull
| JBool (b : bool)
| JInt (z : Z)
| JFloat (f : pyfloat)
| JStr (s : pystr)
| JList (l : list json)
| JDict (items : list (pystr * json)).

(** * The Python runtime *)

(** What the scripts use of the Python runtime and is defined outside the
    repository: the Unicode database behind [str.lower] and [str.title] for
    code points above ASCII (the lowercase mapping reads the neighbours, for
    the final sigma), and [repr] of a float and of a string. *)
Class PyRuntime := {
  nonascii_cased : codepoint -> bool;
  nonascii_title : codepoint -> pystr;
  nonascii_lower : pystr -> codepoint -> pystr -> pystr;
  float_repr : pyfloat -> pystr;
  str_repr : pystr -> pystr
}.

(** The exceptions the loop lets through: [record.items()] on a value that
    is no dict, and [encode] on a lone surrogate. *)
Inductive pyexc := AttributeError | UnicodeEncodeError.

Inductive result (A : Type) :=
| Ok (a : A)
| Raise (e : pyexc).
Arguments Ok {A} a.
Arguments Raise {A} e.

Definition is_ascii (c : codepoint) : bool := N.ltb c 128.
Definition ascii_isupper (c : codepoint) : bool := (N.leb 65 c && N.leb c 90)%N.
Definition ascii_islower (c : codepoint) : bool := (N.leb 97 c && N.leb c 122)%N.

Section Text.
Context {rt : PyRuntime}.

(** ** Case mappings *)

(** Lowercase mapping of [c], standing between [rev_before] (reversed) and
    [after]. *)
Definition lower_cp (rev_before : pystr) (c : codepoint) (after : pystr) : pystr :=
  if is_ascii c then [if ascii_isupper c then (c + 32)%N else c]
  else nonascii_lower rev_before c after.

Definition title_cp (c : codepoint) : pystr :=
  if is_ascii c then [if ascii_islower c then (c - 32)%N else c]
  else nonascii_title c.

Definition is_cased (c : codepoint) : bool :=
  if is_ascii c then ascii_isupper c || ascii_islower c else nonascii_cased c.

Fixpoint lower_from (rev_before s : pystr) : pystr :=
  match s with
  | [] => []
  | c :: s' => lower_cp rev_before c s' ++ lower_from (c :: rev_before) s'
  end.

(** [s.lower()] *)
Definition lower (s : pystr) : pystr := lower_from [] s.

Fixpoint title_from (previous_is_cased : bool) (rev_before s : pystr) : pystr :=
  match s with
  | [] => []
  | c :: s' =>
      (if previous_is_cased then lower_cp rev_before c s' else title_cp c)
        ++ title_from (is_cased c) (c :: rev_before) s'
  end.

(** [s.title()]: a code point that follows a cased one is lowercased, any
    other is titlecased. *)
Definition title (s : pystr) : pystr := title_from false [] s.

(** [repr(v)] *)
Fixpoint py_repr (v : json) : pystr :=
  match v with
  | JNull => lit "None"
  | JBool true => lit "True"
  | JBool false => lit "False"
  | JInt z => str_int z
  | JFloat f => float_repr f
  | JStr s => str_repr s
  | JList l => lit "[" ++ join (lit ", ") (map py_repr l) ++ lit "]"
  | JDict items =>
      lit "{" ++
      join (lit ", ")
        (map (fun '(k, x) => str_repr k ++ lit ": " ++ py_repr x) items) ++
      lit "}"
  end.

(** [str(v)], which is also what an f-string field with no format gives. *)
Definition py_str (v : json) : pystr :=
  match v with
  | JStr s => s
  | _ => py_repr v
  end.

(** [d.get(k, default)] *)
Fixpoint dict_get (items : list (pystr * json)) (k : pystr) (default : json) : json :=
  match items with
  | [] => default
  | (k', x) :: rest => if str_eqb k' k then x else dict_get rest k default
  end.

(** [isinstance(v, (int, float, str))]; [bool] is a subclass of [int]. *)
Definition is_int_float_str (v : json) : bool :=
  match v with
  | JBool _ | JInt _ | JFloat _ | JStr _ => true
  | JNull | JList _ | JDict _ => false
  end.

(** * chunk_script.py *)

Definition RAW_ROOT : pystr := lit "remap-my-rag-source-data/raw/".
Definition PROCESSED_ROOT : pystr := lit "remap-my-rag-source-data/processed/".
Definition MAX_JSON_CHUNK_SIZE_BYTES : Z := 40 * 1024 * 1024.

(** ** process_json_record *)

(** One turn of the loop over [record.items()], on [narrative_parts]. *)
Definition narrative_step (narrative_parts : list pystr) (item : pystr * json)
  : list pystr :=
  let '(key, value) := item in
  if str_in key [lit "id"; lit "timestamp"; lit "internal_hash"] then
    narrative_parts
  else
    match str_eqb key (lit "patient_details"), value with
    | true, JDict d =>
        narrative_parts ++
        [lit "Patient ID: " ++ py_str (dict_get d (lit "patient_id") (JStr (lit "Unknown")))
         ++ lit ". Diagnosis: " ++ py_str (dict_get d (lit "diagnosis") (JStr (lit "N/A")))
         ++ lit "."]
    | _, _ =>
        if is_int_float_str value then
          narrative_parts ++
          [lit "The " ++ title (replace key (lit "_") (lit " ")) ++ lit " is: "
           ++ py_str value ++ lit "."]
        else narrative_parts
    end.

Definition process_json_record (record : list (pystr * json))
  (original_filename : pystr) : pystr :=
  let context_string := lit "SOURCE FILE: " ++ original_filename ++ lit ". " in
  let narrative_parts := fold_left narrative_step record [] in
  context_string ++ join (lit " ") narrative_parts.

(** ** write_json_chunk *)

Definition chunk_separator : pystr := [10; 10; 45; 45; 45; 10; 10]%N.

Definition chunk_filename (base_name : pystr) (index : Z) : pystr :=
  base_name ++ lit "_part_" ++ format_03d index ++ lit ".txt".

(** The file a call creates: its path and its text. *)
Definition write_json_chunk (base_name : pystr) (index : Z) (data_list : list pystr)
  : pystr * pystr :=
  let output_filename := chunk_filename base_name index in
  let output_filepath :=
    path_join (path_join PROCESSED_ROOT (lit "json_chunks")) output_filename in
  (output_filepath, join chunk_separator data_list).

(** ** split_and_process_jsonl *)

(** The local variables of the function, the calls of [write_json_chunk] it
    has made (index and data list, in order) and what it has printed. *)
Record splitter := {
  current_chunk_size : Z;
  chunk_file_index : Z;
  output_data_list : list pystr;
  written : list (Z * list pystr);
  printed : list pystr
}.

Definition skip_message (input_file_path : pystr) (line_number : Z) : pystr :=
  lit "Skipped malformed JSON line in " ++ input_file_path ++ lit " at line "
  ++ str_int line_number ++ lit ".".

(** The body of the loop for one line.  [line] is what [json.loads] made of
    it: [None] when it raised [JSONDecodeError]. *)
Definition process_line (input_file_path : pystr) (st : splitter)
  (line_number : Z) (line : option json) : result splitter :=
  match line with
  | None =>
      Ok {| current_chunk_size := current_chunk_size st;
            chunk_file_index := chunk_file_index st;
            output_data_list := output_data_list st;
            written := written st;
            printed := printed st ++ [skip_message input_file_path line_number] |}
  | Some (JDict record) =>
      let rag_text := process_json_record record (basename input_file_path) in
      match encoded_len rag_text with
      | None => Raise UnicodeEncodeError
      | Some n =>
          if (current_chunk_size st + n >? MAX_JSON_CHUNK_SIZE_BYTES)
             && (current_chunk_size st >? 0)
          then
            Ok {| current_chunk_size := 0 + n;
                  chunk_file_index := chunk_file_index st + 1;
                  output_data_list := [] ++ [rag_text];
                  written := written st ++ [(chunk_file_index st, output_data_list st)];
                  printed := printed st |}
          else
            Ok {| current_chunk_size := current_chunk_size st + n;
                  chunk_file_index := chunk_file_index st;
                  output_data_list := output_data_list st ++ [rag_text];
                  written := written st;
                  printed := printed st |}
      end
  | Some _ => Raise AttributeError
  end.

(** [for line_number, line in enumerate(infile)], from [line_number] on.  An
    exception leaves the loop with the state of the last complete turn. *)
Fixpoint for_each_line (input_file_path : pystr) (st : splitter)
  (line_number : Z) (lines : list (option json)) : splitter * option pyexc :=
  match lines with
  | [] => (st, None)
  | line :: rest =>
      match process_line input_file_path st line_number line with
      | Ok st' => for_each_line input_file_path st' (line_number + 1) rest
      | Raise e => (st, Some e)
      end
  end.

Definition output_filename_base (input_file_path : pystr) : pystr :=
  replace (basename input_file_path) (lit ".jsonl") [].

(** The whole function on a file of the given lines: the final state, and the
    exception when one ended the call. *)
Definition split_and_process_jsonl (input_file_path : pystr)
  (lines : list (option json)) : splitter * option pyexc :=
  let st0 := {| current_chunk_size := 0;
                chunk_file_index := 0;
                output_data_list := [];
                written := [];
                printed := [lit "Starting splitting and cleaning of "
                            ++ basename input_file_path ++ lit "..."] |} in
  match for_each_line input_file_path st0 0 lines with
  | (st, Some e) => (st, Some e)
  | (st, None) =>
      let written' :=
        match output_data_list st with
        | [] => written st
        | _ :: _ => written st ++ [(chunk_file_index st, output_data_list st)]
        end in
      ({| current_chunk_size := current_chunk_size st;
          chunk_file_index := chunk_file_index st;
          output_data_list := output_data_list st;
          written := written';
          printed := printed st ++
                     [lit "Successfully split into " ++ str_int (chunk_file_index st + 1)
                      ++ lit " smaller RAG files."] |}, None)
  end.

(** The chunks a call emitted, in order, and the files they became. *)
Definition emitted_chunks (r : splitter * option pyexc) : list (list pystr) :=
  map snd (written (fst r)).

Definition emitted_files (input_file_path : pystr) (r : splitter * option pyexc)
  : list (pystr * pystr) :=
  map (fun '(index, data_list) =>
         write_json_chunk (output_filename_base input_file_path) index data_list)
      (written (fst r)).

(** ** process_unstructured_files *)

Inductive disposition := Quarantine | PassThrough | Deferred | Unknown.

(** The branch of the if/elif chain a file of directory [subdir] takes. *)
Definition classify (subdir filename : pystr) : disposition :=
  if endswith_any (lower filename)
       [lit ".png"; lit ".jpg"; lit ".jpeg"; lit ".gif"] then Quarantine
  else if endswith_any (lower filename)
       [lit ".docx"; lit ".pdf"; lit ".xlsx"; lit ".pptx"; lit ".eml"] then PassThrough
  else if endswith (lower filename) (lit ".jsonl") && contains subdir (lit "json/")
       then Deferred
  else Unknown.

(** What the branch does: the [os.rename] it calls, if any, and the line it
    prints, if any. *)
Definition handle_file (subdir filename : pystr)
  : option (pystr * pystr) * option pystr :=
  let source_path := path_join subdir filename in
  match classify subdir filename with
  | Quarantine =>
      (Some (source_path,
             path_join (path_join PROCESSED_ROOT (lit "unsupported_files")) filename),
       Some (lit "  [QUARANTINED] Image file " ++ filename ++ lit "."))
  | PassThrough =>
      (Some (source_path,
             path_join (path_join PROCESSED_ROOT (lit "documents")) filename),
       Some (lit "  [CLEANED] Document " ++ filename
             ++ lit " moved to /processed/documents."))
  | Deferred => (None, None)
  | Unknown =>
      (None, Some (lit "  [SKIPPED] Unknown file type " ++ filename ++ lit "."))
  end.

(** The whole function on what [os.walk(RAW_ROOT)] yields, directory by
    directory: the renames it makes and the lines it prints, in order.  The
    destinations lie outside [RAW_ROOT], so a rename does not change what the
    walk yields later. *)
Definition process_unstructured_files (walk : list (pystr * list pystr))
  : list (pystr * pystr) * list pystr :=
  fold_left
    (fun acc '(subdir, files) =>
       fold_left
         (fun acc filename =>
            let '(rename, message) := handle_file subdir filename in
            (fst acc ++ match rename with Some r => [r] | None => [] end,
             snd acc ++ match message with Some m => [m] | None => [] end))
         files acc)
    walk
    ([], [10%N :: lit "Starting unstructured file check (PPTX, Images, Docs)..."]).

(** * rag_distributed_etl_job.py *)

(** Lines 46 to 48 of [process_content_udf]: the redaction of one text. *)
Definition redact (text : pystr) : pystr :=
  if contains (lower text) (lit "patient") || contains (lower text) (lit "ssn") then
    lit "[HIPAA REDACTION APPLIED] "
    ++ replace text (lit "John Smith") (lit "[PHI_NAME_MASKED]")
  else text.

(** The body of the loop of [process_content_udf] for one row. *)
Definition process_content (content ext : pystr) : pystr :=
  let text := content in
  let text :=
    if str_in ext [lit ".docx"; lit ".pptx"] then
      lit "DOCUMENT TEXT EXTRACTED: " ++ slice_to 500 text ++ lit "..."
    else if str_in ext [lit ".xlsx"; lit ".csv"] then
      lit "TABULAR DATA NARRATIVE: Summary of sheet: " ++ slice_to 500 text ++ lit "..."
    else text in
  redact text.

Definition process_content_udf (file_content file_extension : list pystr)
  : list pystr :=
  map (fun '(content, ext) => process_content content ext)
      (combine file_content file_extension).

End Text.

(** * The specification's vocabulary *)

(** The byte size of a chunk: the encoded lengths of its narratives, summed,
    separators left out. *)
Definition chunk_byte_size (chunk : list pystr) : Z :=
  fold_right (fun t acc => utf8_len t + acc) 0 chunk.

Definition within_ceiling (chunk : list pystr) : Prop :=
  chunk_byte_size chunk <= MAX_JSON_CHUNK_SIZE_BYTES.

Definition oversized_singleton (chunk : list pystr) : Prop :=
  exists t, chunk = [t] /\ MAX_JSON_CHUNK_SIZE_BYTES < utf8_len t.

(** The number of bytes [outfile.write] puts into a file. *)
Definition file_bytes (file : pystr * pystr) : Z := utf8_len (snd file).

(** [n] copies of [c], with [n] in binary: a text of many megabytes stays a
    small term. *)
Definition replicate (n : N) (c : codepoint) : pystr := N.iter n (cons c) [].

(** A runtime for closed examples.  On ASCII text it is Python's; above ASCII
    it leaves code points as they are, and it quotes a string plainly. *)
Definition ascii_runtime : PyRuntime := {|
  nonascii_cased := fun _ => false;
  nonascii_title := fun c => [c];
  nonascii_lower := fun _ c _ => [c];
  float_repr := fun f => match f with Float64 bits => str_int bits end;
  str_repr := fun s => 39%N :: s ++ [39%N]
|}.

Section Vocabulary.
Context {rt : PyRuntime}.

(** The narratives of the lines that parse, in input order: one for each line
    that holds a JSON object. *)
Definition narratives_of (input_file_path : pystr) (lines : list (option json))
  : list pystr :=
  flat_map (fun line =>
              match line with
              | Some (JDict record) =>
                  [process_json_record record (basename input_file_path)]
              | _ => []
              end) lines.

(** A line the loop gets through: malformed, or an object whose narrative has
    a UTF-8 encoding. *)
Definition line_passes (input_file_path : pystr) (line : option json) : Prop :=
  match line with
  | None => True
  | Some (JDict record) =>
      encodable (process_json_record record (basename input_file_path)) = true
  | Some _ => False
  end.

(** The sentence the specification gives a field, if any (rules a to c of the
    record normaliser). *)
Definition is_reserved (key : pystr) : bool :=
  str_eqb key (lit "id") || str_eqb key (lit "timestamp")
  || str_eqb key (lit "internal_hash").

Definition rendered_sentence (key : pystr) (value : json) : option pystr :=
  if is_reserved key then None
  else
    match value with
    | JDict d =>
        if str_eqb key (lit "patient_details") then
          Some (lit "Patient ID: "
                ++ py_str (dict_get d (lit "patient_id") (JStr (lit "Unknown")))
                ++ lit ". Diagnosis: "
                ++ py_str (dict_get d (lit "diagnosis") (JStr (lit "N/A")))
                ++ lit ".")
        else None
    | JBool _ | JInt _ | JFloat _ | JStr _ =>
        Some (lit "The " ++ title (replace key (lit "_") (lit " ")) ++ lit " is: "
              ++ py_str value ++ lit ".")
    | JNull | JList _ => None
    end.

Definition rendered_sentences (record : list (pystr * json)) : list pystr :=
  flat_map (fun '(key, value) =>
              match rendered_sentence key value with
              | Some s => [s]
              | None => []
              end) record.

End Vocabulary.

(** A field the normaliser has no rule for: its value is no int, float or
    str, and no dict under the key [patient_details]. *)
Definition unrendered (key : pystr) (value : json) : bool :=
  match value with
  | JNull | JList _ => true
  | JDict _ => negb (str_eqb key (lit "patient_details"))
  | JBool _ | JInt _ | JFloat _ | JStr _ => false
  end.

Definition drop_unrendered (record : list (pystr * json)) : list (pystr * json) :=
  filter (fun '(key, value) => negb (unrendered key value)) record.

(** A chunk the size bound allows. *)
Definition chunk_ok (chunk : list pystr) : Prop :=
  within_ceiling chunk \/ oversized_singleton chunk.

(** What every turn of the loop keeps true of the state. *)
Record splitter_inv (st : splitter) : Prop := {
  inv_size : current_chunk_size st = chunk_byte_size (output_data_list st);
  inv_pos : Forall (fun t => 0 < utf8_len t) (output_data_list st);
  inv_cur : chunk_ok (output_data_list st);
  inv_written : Forall (fun w => chunk_ok (snd w) /\ snd w <> []) (written st);
  inv_index : chunk_file_index st = Z.of_nat (length (written st));
  inv_seq : map fst (written st) = map Z.of_nat (seq 0 (length (written st)))
}.

(** A record with the one field ["a"], a text of [n] letters x. *)
Definition big_record (n : N) : list (pystr * json) :=
  [(lit "a", JStr (replicate n 120%N))].

(** The names of the files a call wrote, in order. *)
Definition emitted_filenames (input_file_path : pystr)
  (r : splitter * option pyexc) : list pystr :=
  map (fun w => chunk_filename (output_filename_base input_file_path) (fst w))
      (written (fst r)).

(** What the loop works on: the state without the output already printed. *)
Definition core (st : splitter) : Z * Z * list pystr * list (Z * list pystr) :=
  (current_chunk_size st, chunk_file_index st, output_data_list st, written st).

(** One chunk for each text, numbered from [i] on. *)
Fixpoint number_from (i : Z) (ts : list pystr) : list (Z * list pystr) :=
  match ts with
  | [] => []
  | t :: ts' => (i, [t]) :: number_from (i + 1) ts'
  end.

(** The fixed extension tables of the classifier. *)
Definition image_extensions : list pystr :=
  [lit ".png"; lit ".jpg"; lit ".jpeg"; lit ".gif"].
Definition document_extensions : list pystr :=
  [lit ".docx"; lit ".pdf"; lit ".xlsx"; lit ".pptx"; lit ".eml"].


(** What follows the common stem in the names of the first [bound] chunks. *)
Definition index_suffixes (bound : nat) : list pystr :=
  map (fun i => format_03d (Z.of_nat i) ++ lit ".txt") (seq 0 bound).

(** Every text of the list is below all those after it. *)
Fixpoint strictly_increasing (l : list pystr) : bool :=
  match l with
  | [] => true
  | x :: rest => forallb (str_ltb x) rest && strictly_increasing rest
  end.

Section Oversized.
Context {rt : PyRuntime}.

(** A line that holds a record whose narrative alone exceeds the ceiling. *)
Definition oversized_line (input_file_path : pystr) (line : option json) : Prop :=
  match line with
  | Some (JDict record) =>
      encodable (process_json_record record (basename input_file_path)) = true
      /\ MAX_JSON_CHUNK_SIZE_BYTES
         < utf8_len (process_json_record record (basename input_file_path))
  | _ => False
  end.

End Oversized.


(** A text with no slash in it: a bare file name. *)
Definition no_slash (s : pystr) : Prop := Forall (fun c => c <> 47%N) s.

(** The number a text of decimal digits writes; leading zeros count for
    nothing.  The inverse of the index formatting of the chunk names. *)
Fixpoint str_uint (s : pystr) : Decimal.uint :=
  match s with
  | [] => Decimal.Nil
  | c :: s' =>
      match c with
      | 49%N => Decimal.D1 (str_uint s')
      | 50%N => Decimal.D2 (str_uint s')
      | 51%N => Decimal.D3 (str_uint s')
      | 52%N => Decimal.D4 (str_uint s')
      | 53%N => Decimal.D5 (str_uint s')
      | 54%N => Decimal.D6 (str_uint s')
      | 55%N => Decimal.D7 (str_uint s')
      | 56%N => Decimal.D8 (str_uint s')
      | 57%N => Decimal.D9 (str_uint s')
      | _ => Decimal.D0 (str_uint s')
      end
  end.

Definition parse_index (s : pystr) : N := N.of_uint (str_uint s).

(** A chunk is sealed only when the narrative that opens the next one would
    not fit: each chunk that has a successor, taken with the first narrative
    of that successor, exceeds the ceiling. *)
Fixpoint sealed_when_full (chunks : list (list pystr)) : Prop :=
  match chunks with
  | [] => True
  | chunk :: rest =>
      match rest with
      | [] => True
      | next :: _ =>
          MAX_JSON_CHUNK_SIZE_BYTES < chunk_byte_size chunk + utf8_len (hd [] next)
      end /\ sealed_when_full rest
  end.

(** The positions, counted from [n], of the lines that did not parse. *)
Fixpoint malformed_from (n : Z) (lines : list (option json)) : list Z :=
  match lines with
  | [] => []
  | None :: rest => n :: malformed_from (n + 1) rest
  | Some _ :: rest => malformed_from (n + 1) rest
  end.

(** * Text lemmas *)

Lemma str_eqb_refl (a : pystr) : str_eqb a a = true.
Proof.
  induction a as [|x a IH]; simpl; [reflexivity|].
  now rewrite N.eqb_refl, IH.
Qed.

Lemma str_eqb_eq (a b : pystr) : str_eqb a b = true <-> a = b.
Proof.
  split; [|intros ->; apply str_eqb_refl].
  revert b; induction a as [|x a IH]; intros [|y b]; simpl; try discriminate; auto.
  intros H. apply andb_true_iff in H as [Hx Hab].
  apply N.eqb_eq in Hx. apply IH in Hab. congruence.
Qed.


Lemma utf8_width_bounds (c : codepoint) : 1 <= utf8_width c <= 4.
Proof.
  unfold utf8_width.
  destruct (N.ltb c 0x80); [lia|].
  destruct (N.ltb c 0x800); [lia|].
  destruct (N.ltb c 0x10000); lia.
Qed.

Lemma utf8_len_nonneg (s : pystr) : 0 <= utf8_len s.
Proof.
  induction s as [|c s IH]; simpl; [lia|].
  pose proof (utf8_width_bounds c). lia.
Qed.

Lemma utf8_len_app (a b : pystr) : utf8_len (a ++ b) = utf8_len a + utf8_len b.
Proof.
  induction a as [|c a IH]; simpl; [reflexivity|]. rewrite IH. lia.
Qed.

Lemma encodable_app (a b : pystr) :
  encodable (a ++ b) = encodable a && encodable b.
Proof. unfold encodable. apply forallb_app. Qed.

Lemma replicate_succ (n : N) (c : codepoint) :
  replicate (N.succ n) c = c :: replicate n c.
Proof. unfold replicate. apply N.iter_succ. Qed.

Lemma utf8_len_replicate (n : N) (c : codepoint) :
  utf8_len (replicate n c) = Z.of_N n * utf8_width c.
Proof.
  induction n as [|n IH] using N.peano_ind; [reflexivity|].
  rewrite replicate_succ. simpl. rewrite IH. lia.
Qed.

Lemma encodable_replicate (n : N) (c : codepoint) :
  is_surrogate c = false -> encodable (replicate n c) = true.
Proof.
  intros Hc. induction n as [|n IH] using N.peano_ind; [reflexivity|].
  rewrite replicate_succ. simpl. now rewrite Hc, IH.
Qed.

Lemma chunk_byte_size_app (a b : list pystr) :
  chunk_byte_size (a ++ b) = chunk_byte_size a + chunk_byte_size b.
Proof.
  induction a as [|t a IH]; simpl; [reflexivity|]. rewrite IH. lia.
Qed.

Lemma chunk_byte_size_nonneg (a : list pystr) : 0 <= chunk_byte_size a.
Proof.
  induction a as [|t a IH]; simpl; [lia|].
  pose proof (utf8_len_nonneg t). lia.
Qed.

(** A joined text has the bytes of its parts and of one separator between
    each two of them. *)
Lemma utf8_len_join (sep : pystr) (parts : list pystr) :
  parts <> [] ->
  utf8_len (join sep parts)
  = chunk_byte_size parts + utf8_len sep * (Z.of_nat (length parts) - 1).
Proof.
  induction parts as [|p rest IH]; [congruence|]. intros _.
  destruct rest as [|q rest].
  - simpl. lia.
  - change (join sep (p :: q :: rest)) with (p ++ sep ++ join sep (q :: rest)).
    rewrite !utf8_len_app, IH by discriminate.
    change (chunk_byte_size (p :: q :: rest))
      with (utf8_len p + chunk_byte_size (q :: rest)).
    cbn [length]. lia.
Qed.

(** * The record normaliser *)

Section Normaliser.
Context {rt : PyRuntime}.

Lemma str_in_reserved (key : pystr) :
  str_in key [lit "id"; lit "timestamp"; lit "internal_hash"] = is_reserved key.
Proof.
  unfold str_in, is_reserved. simpl. now rewrite orb_false_r, orb_assoc.
Qed.

(** One turn of the loop adds the field's sentence, if it has one. *)
Lemma narrative_step_spec (parts : list pystr) (key : pystr) (value : json) :
  narrative_step parts (key, value)
  = parts ++ match rendered_sentence key value with
             | Some s => [s]
             | None => []
             end.
Proof.
  unfold narrative_step, rendered_sentence.
  rewrite str_in_reserved.
  destruct (is_reserved key); [now rewrite app_nil_r|].
  destruct (str_eqb key (lit "patient_details")); destruct value;
    simpl; now rewrite ?app_nil_r.
Qed.

Lemma fold_narrative_step (record : list (pystr * json)) (parts : list pystr) :
  fold_left narrative_step record parts = parts ++ rendered_sentences record.
Proof.
  revert parts. induction record as [|[key value] record IH]; intros parts.
  - simpl. now rewrite app_nil_r.
  - cbn [fold_left]. rewrite IH, narrative_step_spec.
    unfold rendered_sentences. cbn [flat_map]. now rewrite <- app_assoc.
Qed.

Lemma rendered_unrendered (key : pystr) (value : json) :
  unrendered key value = true -> rendered_sentence key value = None.
Proof.
  unfold unrendered, rendered_sentence. intros H.
  destruct (is_reserved key); [reflexivity|].
  destruct value; try discriminate; try reflexivity.
  apply negb_true_iff in H. now rewrite H.
Qed.

Lemma rendered_sentences_drop (record : list (pystr * json)) :
  rendered_sentences (drop_unrendered record) = rendered_sentences record.
Proof.
  induction record as [|[key value] record IH]; [reflexivity|].
  unfold drop_unrendered in *. cbn [filter].
  destruct (unrendered key value) eqn:E; cbn [negb].
  - unfold rendered_sentences in *. cbn [flat_map].
    now rewrite (rendered_unrendered _ _ E), IH.
  - unfold rendered_sentences in *. cbn [flat_map]. now rewrite IH.
Qed.

Lemma process_json_record_sentences (record : list (pystr * json)) (filename : pystr) :
  process_json_record record filename
  = (lit "SOURCE FILE: " ++ filename ++ lit ". ")
    ++ join (lit " ") (rendered_sentences record).
Proof.
  unfold process_json_record. now rewrite fold_narrative_step.
Qed.

(** Every narrative starts with its source tag, so none is empty. *)
Lemma narrative_positive (record : list (pystr * json)) (filename : pystr) :
  0 < utf8_len (process_json_record record filename).
Proof.
  rewrite process_json_record_sentences, !utf8_len_app.
  change (utf8_len (lit "SOURCE FILE: ")) with 13.
  pose proof (utf8_len_nonneg filename).
  pose proof (utf8_len_nonneg (lit ". ")).
  pose proof (utf8_len_nonneg (join (lit " ") (rendered_sentences record))).
  lia.
Qed.


End Normaliser.

(** * The splitter *)

Section Splitter.
Context {rt : PyRuntime}.

Lemma chunk_byte_size_zero (chunk : list pystr) :
  Forall (fun t => 0 < utf8_len t) chunk -> chunk_byte_size chunk <= 0 -> chunk = [].
Proof.
  intros Hpos Hle. destruct chunk as [|t chunk]; [reflexivity|].
  apply Forall_inv in Hpos. simpl in Hle.
  pose proof (chunk_byte_size_nonneg chunk). lia.
Qed.

Lemma chunk_byte_size_In (t : pystr) (chunk : list pystr) :
  In t chunk -> utf8_len t <= chunk_byte_size chunk.
Proof.
  induction chunk as [|u chunk IH]; simpl; [tauto|].
  pose proof (utf8_len_nonneg u). pose proof (chunk_byte_size_nonneg chunk).
  intros [->|Hin]; [lia|]. apply IH in Hin. lia.
Qed.

Lemma chunk_ok_singleton (t : pystr) : chunk_ok [t].
Proof.
  destruct (Z_le_gt_dec (utf8_len t) MAX_JSON_CHUNK_SIZE_BYTES) as [H|H].
  - left. unfold within_ceiling. simpl. lia.
  - right. exists t. split; [reflexivity|lia].
Qed.

Lemma seq_snoc_indices (w : list (Z * list pystr)) (x : list pystr) :
  map fst w = map Z.of_nat (seq 0 (length w)) ->
  map fst (w ++ [(Z.of_nat (length w), x)])
  = map Z.of_nat (seq 0 (length (w ++ [(Z.of_nat (length w), x)]))).
Proof.
  intros H. rewrite length_app, Nat.add_1_r, seq_S, !map_app, H. reflexivity.
Qed.

Lemma initial_inv (out : list pystr) :
  splitter_inv {| current_chunk_size := 0; chunk_file_index := 0;
                  output_data_list := []; written := []; printed := out |}.
Proof.
  constructor; simpl; auto.
  left. unfold within_ceiling. simpl. unfold MAX_JSON_CHUNK_SIZE_BYTES. lia.
Qed.

(** The body of the loop keeps the invariant. *)
Lemma process_line_inv (path : pystr) (st st' : splitter) (n : Z)
  (line : option json) :
  splitter_inv st -> process_line path st n line = Ok st' -> splitter_inv st'.
Proof.
  intros [Hsize Hpos Hcur Hwr Hidx Hseq] Hstep.
  destruct line as [v|]; cycle 1.
  { injection Hstep as <-. constructor; assumption. }
  destruct v as [| | | | | |record]; try discriminate Hstep.
  cbn [process_line] in Hstep.
  pose proof (narrative_positive record (basename path)) as Ht.
  set (t := process_json_record record (basename path)) in *.
  unfold encoded_len in Hstep. destruct (encodable t); [|discriminate].
  destruct ((current_chunk_size st + utf8_len t >? MAX_JSON_CHUNK_SIZE_BYTES)
            && (current_chunk_size st >? 0)) eqn:E;
    injection Hstep as <-.
  - apply andb_true_iff in E as [_ E]. rewrite Z.gtb_ltb in E.
    apply Z.ltb_lt in E.
    constructor; cbn [current_chunk_size chunk_file_index output_data_list written].
    + simpl. lia.
    + constructor; auto.
    + apply chunk_ok_singleton.
    + apply Forall_app. split; [assumption|]. constructor; [|constructor].
      split; [assumption|]. simpl. intros Hnil.
      rewrite Hnil in Hsize. simpl in Hsize. lia.
    + rewrite length_app. simpl. lia.
    + rewrite Hidx. now apply seq_snoc_indices.
  - constructor; cbn [current_chunk_size chunk_file_index output_data_list written];
      try assumption.
    + rewrite chunk_byte_size_app. simpl. lia.
    + apply Forall_app. split; [assumption|]. constructor; auto.
    + apply andb_false_iff in E. rewrite !Z.gtb_ltb in E.
      destruct E as [E|E]; apply Z.ltb_ge in E.
      * left. unfold within_ceiling. rewrite chunk_byte_size_app.
        cbn [chunk_byte_size fold_right]. lia.
      * rewrite (chunk_byte_size_zero (output_data_list st)) by (assumption || lia).
        apply chunk_ok_singleton.
Qed.

Lemma for_each_line_inv (path : pystr) (lines : list (option json)) :
  forall (st st' : splitter) (n : Z) (e : option pyexc),
    splitter_inv st -> for_each_line path st n lines = (st', e) -> splitter_inv st'.
Proof.
  induction lines as [|line lines IH]; intros st st' n e Hinv Hrun.
  - injection Hrun as <- _. assumption.
  - cbn [for_each_line] in Hrun.
    destruct (process_line path st n line) as [st1|e1] eqn:Hstep.
    + eapply IH; [|exact Hrun]. eapply process_line_inv; eassumption.
    + injection Hrun as <- _. assumption.
Qed.

(** What the function has written when it ends, with or without an
    exception: chunks within the bound, none empty, numbered from zero. *)
Lemma split_written (path : pystr) (lines : list (option json)) :
  let w := written (fst (split_and_process_jsonl path lines)) in
  Forall (fun x => chunk_ok (snd x) /\ snd x <> []) w
  /\ map fst w = map Z.of_nat (seq 0 (length w)).
Proof.
  unfold split_and_process_jsonl.
  match goal with
  | |- context [for_each_line path ?s 0 lines] =>
      destruct (for_each_line path s 0 lines) as [st e] eqn:Hrun;
      pose proof (for_each_line_inv path lines s st 0 e (initial_inv _) Hrun)
        as [Hsize Hpos Hcur Hwr Hidx Hseq]
  end.
  destruct e as [e|]; cbn [fst written]; [split; assumption|].
  destruct (output_data_list st) as [|t rest] eqn:Hodl; [split; assumption|].
  split.
  - apply Forall_app. split; [assumption|]. constructor; [|constructor].
    split; [assumption|discriminate].
  - rewrite Hidx. now apply seq_snoc_indices.
Qed.

(** The body of the loop loses and repeats nothing. *)
Lemma process_line_conserves (path : pystr) (st st' : splitter) (n : Z)
  (line : option json) :
  process_line path st n line = Ok st' ->
  concat (map snd (written st')) ++ output_data_list st'
  = (concat (map snd (written st)) ++ output_data_list st)
    ++ narratives_of path [line].
Proof.
  intros Hstep. destruct line as [v|]; cycle 1.
  { injection Hstep as <-. simpl. now rewrite app_nil_r. }
  destruct v as [| | | | | |record]; try discriminate Hstep.
  cbn [process_line] in Hstep.
  set (t := process_json_record record (basename path)) in *.
  destruct (encoded_len t); [|discriminate].
  cbn [narratives_of flat_map]. fold t. rewrite app_nil_r.
  destruct (_ && _); injection Hstep as <-;
    cbn [current_chunk_size chunk_file_index output_data_list written].
  - rewrite map_app, concat_app. simpl. now rewrite app_nil_r.
  - now rewrite app_assoc.
Qed.

Lemma for_each_line_conserves (path : pystr) (lines : list (option json)) :
  forall (st st' : splitter) (n : Z),
    for_each_line path st n lines = (st', None) ->
    concat (map snd (written st')) ++ output_data_list st'
    = (concat (map snd (written st)) ++ output_data_list st)
      ++ narratives_of path lines.
Proof.
  induction lines as [|line lines IH]; intros st st' n Hrun.
  - injection Hrun as <-. simpl. now rewrite app_nil_r.
  - cbn [for_each_line] in Hrun.
    destruct (process_line path st n line) as [st1|e1] eqn:Hstep; [|discriminate].
    rewrite (IH _ _ _ Hrun), (process_line_conserves _ _ _ _ _ Hstep).
    rewrite <- app_assoc. f_equal.
    change (line :: lines) with ([line] ++ lines).
    unfold narratives_of. now rewrite flat_map_app.
Qed.

(** A call that returns has emitted every narrative once, in order. *)
Lemma split_conserves (path : pystr) (lines : list (option json)) :
  snd (split_and_process_jsonl path lines) = None ->
  concat (emitted_chunks (split_and_process_jsonl path lines))
  = narratives_of path lines.
Proof.
  unfold emitted_chunks, split_and_process_jsonl.
  match goal with
  | |- context [for_each_line path ?s 0 lines] =>
      destruct (for_each_line path s 0 lines) as [st e] eqn:Hrun
  end.
  destruct e as [e|]; [discriminate|]. intros _.
  apply for_each_line_conserves in Hrun. cbn in Hrun.
  cbn [fst written]. rewrite <- Hrun.
  destruct (output_data_list st) as [|t rest]; [now rewrite app_nil_r|].
  rewrite map_app, concat_app. simpl. now rewrite app_nil_r.
Qed.

(** The loop gets through lines that pass, and only through them. *)
Lemma process_line_passes (path : pystr) (st : splitter) (n : Z)
  (line : option json) :
  line_passes path line -> exists st', process_line path st n line = Ok st'.
Proof.
  intros Hpass. destruct line as [v|]; [|eexists; reflexivity].
  destruct v as [| | | | | |record]; try contradiction.
  cbn [process_line line_passes] in *. unfold encoded_len. rewrite Hpass.
  destruct (_ && _); eexists; reflexivity.
Qed.

Lemma for_each_line_passes (path : pystr) (lines : list (option json)) :
  Forall (line_passes path) lines ->
  forall (st : splitter) (n : Z), snd (for_each_line path st n lines) = None.
Proof.
  induction 1 as [|line lines Hline _ IH]; intros st n; [reflexivity|].
  cbn [for_each_line].
  destruct (process_line_passes path st n line Hline) as [st' ->]. apply IH.
Qed.

Lemma split_returns (path : pystr) (lines : list (option json)) :
  Forall (line_passes path) lines ->
  snd (split_and_process_jsonl path lines) = None.
Proof.
  intros Hpass. unfold split_and_process_jsonl.
  match goal with
  | |- context [for_each_line path ?s 0 lines] =>
      pose proof (for_each_line_passes path lines Hpass s 0) as Hnone;
      destruct (for_each_line path s 0 lines) as [st e]
  end.
  simpl in Hnone. now subst e.
Qed.

End Splitter.

(** ** Single steps, for following a run by hand *)

Section Steps.
Context {rt : PyRuntime}.

Lemma encoded_len_some (t : pystr) :
  encodable t = true -> encoded_len t = Some (utf8_len t).
Proof. unfold encoded_len. now intros ->. Qed.

(** The turn that seals the chunk and starts the next one with the text. *)
Lemma process_line_roll (path : pystr) (st : splitter) (n : Z)
  (record : list (pystr * json)) :
  let t := process_json_record record (basename path) in
  encodable t = true ->
  MAX_JSON_CHUNK_SIZE_BYTES < current_chunk_size st + utf8_len t ->
  0 < current_chunk_size st ->
  process_line path st n (Some (JDict record))
  = Ok {| current_chunk_size := 0 + utf8_len t;
          chunk_file_index := chunk_file_index st + 1;
          output_data_list := [t];
          written := written st ++ [(chunk_file_index st, output_data_list st)];
          printed := printed st |}.
Proof.
  intros t Henc Hover Hpos. cbn [process_line]. fold t.
  rewrite (encoded_len_some t Henc).
  rewrite !Z.gtb_ltb.
  rewrite (proj2 (Z.ltb_lt _ _) Hover), (proj2 (Z.ltb_lt _ _) Hpos).
  reflexivity.
Qed.

(** The turn that adds the text to the chunk at hand. *)
Lemma process_line_keep (path : pystr) (st : splitter) (n : Z)
  (record : list (pystr * json)) :
  let t := process_json_record record (basename path) in
  encodable t = true ->
  current_chunk_size st + utf8_len t <= MAX_JSON_CHUNK_SIZE_BYTES
  \/ current_chunk_size st <= 0 ->
  process_line path st n (Some (JDict record))
  = Ok {| current_chunk_size := current_chunk_size st + utf8_len t;
          chunk_file_index := chunk_file_index st;
          output_data_list := output_data_list st ++ [t];
          written := written st;
          printed := printed st |}.
Proof.
  intros t Henc Hfit. cbn [process_line]. fold t.
  rewrite (encoded_len_some t Henc).
  rewrite !Z.gtb_ltb.
  destruct Hfit as [H|H]; apply Z.ltb_ge in H; rewrite H;
    now rewrite ?andb_false_r.
Qed.

(** A single record makes a single chunk, whatever its size. *)
Lemma run_one (path : pystr) (record : list (pystr * json)) :
  let t := process_json_record record (basename path) in
  encodable t = true ->
  written (fst (split_and_process_jsonl path [Some (JDict record)])) = [(0, [t])]
  /\ snd (split_and_process_jsonl path [Some (JDict record)]) = None.
Proof.
  intros t Henc. unfold split_and_process_jsonl. cbn [for_each_line].
  rewrite process_line_keep by (assumption || (right; simpl; lia)).
  split; reflexivity.
Qed.

(** Two records that fit together make one chunk. *)
Lemma run_two_fit (path : pystr) (r1 r2 : list (pystr * json)) :
  let t1 := process_json_record r1 (basename path) in
  let t2 := process_json_record r2 (basename path) in
  encodable t1 = true -> encodable t2 = true ->
  utf8_len t1 + utf8_len t2 <= MAX_JSON_CHUNK_SIZE_BYTES ->
  written (fst (split_and_process_jsonl path [Some (JDict r1); Some (JDict r2)]))
  = [(0, [t1; t2])].
Proof.
  intros t1 t2 H1 H2 Hfit. unfold split_and_process_jsonl. cbn [for_each_line].
  rewrite process_line_keep by (assumption || (right; simpl; lia)).
  cbn [current_chunk_size chunk_file_index output_data_list written printed].
  rewrite process_line_keep
    by (assumption || (left; cbn [current_chunk_size]; fold t1 t2; lia)).
  reflexivity.
Qed.

End Steps.

(** ** Large records *)

Section LargeRecords.
Context {rt : PyRuntime}.

Lemma big_narrative (n : N) (filename : pystr) :
  process_json_record (big_record n) filename
  = (lit "SOURCE FILE: " ++ filename ++ lit ". ")
    ++ lit "The A is: " ++ replicate n 120%N ++ lit ".".
Proof. rewrite process_json_record_sentences. reflexivity. Qed.

Lemma big_narrative_len (n : N) (filename : pystr) :
  utf8_len (process_json_record (big_record n) filename)
  = Z.of_N n + utf8_len filename + 26.
Proof.
  rewrite big_narrative, !utf8_len_app, utf8_len_replicate.
  change (utf8_len (lit "SOURCE FILE: ")) with 13.
  change (utf8_len (lit ". ")) with 2.
  change (utf8_len (lit "The A is: ")) with 10.
  change (utf8_len (lit ".")) with 1.
  change (utf8_width 120%N) with 1. lia.
Qed.

Lemma big_narrative_encodable (n : N) (filename : pystr) :
  encodable filename = true ->
  encodable (process_json_record (big_record n) filename) = true.
Proof.
  intros Hf. rewrite big_narrative, !encodable_app, Hf.
  rewrite encodable_replicate by reflexivity. reflexivity.
Qed.

End LargeRecords.

(** * The size bound *)

Section SizeBound.
Context {rt : PyRuntime}.

(** C1.  Every chunk the splitter emits is within the ceiling of 40 MB
    (the encoded lengths of its narratives, summed), or is a single narrative
    that is itself larger; a call that returns has emitted each such oversized
    narrative alone, whole and none of them dropped; and a file of one record
    becomes chunk 0, whatever the size of its narrative. *)
Theorem emitted_chunk_size_bound :
  forall (path : pystr) (lines : list (option json)),
    Forall (fun chunk => within_ceiling chunk \/ oversized_singleton chunk)
           (emitted_chunks (split_and_process_jsonl path lines))
    /\ (snd (split_and_process_jsonl path lines) = None ->
        forall t, In t (narratives_of path lines) ->
                  MAX_JSON_CHUNK_SIZE_BYTES < utf8_len t ->
                  In [t] (emitted_chunks (split_and_process_jsonl path lines)))
    /\ (forall record,
          encodable (process_json_record record (basename path)) = true ->
          emitted_chunks (split_and_process_jsonl path [Some (JDict record)])
          = [[process_json_record record (basename path)]]).
Proof.
  intros path lines.
  assert (Hall : Forall chunk_ok
                   (emitted_chunks (split_and_process_jsonl path lines))).
  { unfold emitted_chunks. apply Forall_map.
    eapply Forall_impl; [|exact (proj1 (split_written path lines))].
    intros w [Hok _]. exact Hok. }
  split; [exact Hall|split].
  - intros Hret t Hin Hbig.
    rewrite <- (split_conserves path lines Hret) in Hin.
    apply in_concat in Hin as [chunk [Hchunk Ht]].
    rewrite Forall_forall in Hall.
    destruct (Hall chunk Hchunk) as [Hfit|[u [-> Hu]]].
    + apply chunk_byte_size_In in Ht. unfold within_ceiling in Hfit. lia.
    + destruct Ht as [->|[]]. exact Hchunk.
  - intros record Henc. unfold emitted_chunks.
    now rewrite (proj1 (run_one path record Henc)).
Qed.

End SizeBound.

(** The bound at work: a record of 45 MB is emitted alone. *)
Lemma emitted_chunk_size_bound_witness :
  let path := lit "d.jsonl" in
  let line := Some (JDict (big_record 47185887)) in
  let t := process_json_record (rt := ascii_runtime) (big_record 47185887)
             (basename path) in
  snd (split_and_process_jsonl (rt := ascii_runtime) path [line]) = None
  /\ In t (narratives_of (rt := ascii_runtime) path [line])
  /\ MAX_JSON_CHUNK_SIZE_BYTES < utf8_len t
  /\ utf8_len t = 45 * 1024 * 1024
  /\ In [t] (emitted_chunks (split_and_process_jsonl (rt := ascii_runtime) path [line])).
Proof.
  intros path line t.
  assert (Henc : encodable t = true)
    by (apply big_narrative_encodable; reflexivity).
  assert (Hlen : utf8_len t = 45 * 1024 * 1024)
    by (unfold t; rewrite big_narrative_len; reflexivity).
  assert (Hret : snd (split_and_process_jsonl (rt := ascii_runtime) path [line]) = None)
    by (apply run_one; exact Henc).
  assert (Hin : In t (narratives_of (rt := ascii_runtime) path [line]))
    by (left; reflexivity).
  assert (Hbig : MAX_JSON_CHUNK_SIZE_BYTES < utf8_len t)
    by (rewrite Hlen; reflexivity).
  split; [exact Hret|]. split; [exact Hin|]. split; [exact Hbig|].
  split; [exact Hlen|].
  exact (proj1 (proj2 (emitted_chunk_size_bound (rt := ascii_runtime) path [line]))
           Hret t Hin Hbig).
Defined.

(** * Conservation *)

(** C2, as stated, fails: a line that parses to a value that is no object
    ends the call in [process_json_record] with an [AttributeError] the loop
    does not catch, before the chunk at hand is written; the narrative of the
    record before it is lost. *)
Lemma conservation_counterexample :
  let path := lit "data.jsonl" in
  let lines := [Some (JDict [(lit "a", JInt 1)]); Some (JInt 5)] in
  snd (split_and_process_jsonl (rt := ascii_runtime) path lines) = Some AttributeError
  /\ emitted_chunks (split_and_process_jsonl (rt := ascii_runtime) path lines) = []
  /\ narratives_of (rt := ascii_runtime) path lines
     = [lit "SOURCE FILE: data.jsonl. The A is: 1."].
Proof. repeat split; vm_compute; reflexivity. Qed.

Section Conservation.
Context {rt : PyRuntime}.

(** C2, amended.  When every line that parses holds a JSON object whose
    narrative has a UTF-8 encoding, the call returns, and the narratives of
    the emitted chunks, concatenated in emission order, are exactly the
    narratives of the lines that parse, in input order: none twice, none lost,
    the trailing chunk included. *)
Theorem emitted_narratives_conserved :
  forall (path : pystr) (lines : list (option json)),
    Forall (line_passes path) lines ->
    snd (split_and_process_jsonl path lines) = None
    /\ concat (emitted_chunks (split_and_process_jsonl path lines))
       = narratives_of path lines.
Proof.
  intros path lines Hpass.
  pose proof (split_returns path lines Hpass) as Hret.
  split; [exact Hret|]. now apply split_conserves.
Qed.

End Conservation.

Lemma emitted_narratives_conserved_witness :
  let path := lit "raw/json/data.jsonl" in
  let lines := [Some (JDict [(lit "id", JInt 7); (lit "first_name", JStr (lit "ada"))]);
                None;
                Some (JDict [(lit "age", JInt 36)])] in
  Forall (line_passes (rt := ascii_runtime) path) lines
  /\ concat (emitted_chunks (split_and_process_jsonl (rt := ascii_runtime) path lines))
     = [lit "SOURCE FILE: data.jsonl. The First Name is: ada.";
        lit "SOURCE FILE: data.jsonl. The Age is: 36."].
Proof.
  intros path lines.
  assert (Hpass : Forall (line_passes (rt := ascii_runtime) path) lines)
    by (repeat constructor).
  split; [exact Hpass|].
  rewrite (proj2 (emitted_narratives_conserved (rt := ascii_runtime) path lines Hpass)).
  reflexivity.
Defined.

(** * Scenario A: 20 MB, 20 MB and 5 MB *)

Section ScenarioA.
Context {rt : PyRuntime}.

(** C5.  Three records whose narratives encode to 20 MB, 20 MB and 5 MB
    make two chunks: chunk 0 holds the first two, its counter at exactly
    40 MB (a sum equal to the ceiling does not roll over, the test being a
    strict one), and chunk 1 holds the third. *)
Theorem three_records_two_chunks :
  forall (path : pystr) (r1 r2 r3 : list (pystr * json)),
    let t1 := process_json_record r1 (basename path) in
    let t2 := process_json_record r2 (basename path) in
    let t3 := process_json_record r3 (basename path) in
    encodable t1 = true -> encodable t2 = true -> encodable t3 = true ->
    utf8_len t1 = 20 * 1024 * 1024 ->
    utf8_len t2 = 20 * 1024 * 1024 ->
    utf8_len t3 = 5 * 1024 * 1024 ->
    written (fst (split_and_process_jsonl path
                    [Some (JDict r1); Some (JDict r2); Some (JDict r3)]))
    = [(0, [t1; t2]); (1, [t3])]
    /\ snd (split_and_process_jsonl path
              [Some (JDict r1); Some (JDict r2); Some (JDict r3)]) = None
    /\ core (fst (for_each_line path
                    {| current_chunk_size := 0; chunk_file_index := 0;
                       output_data_list := []; written := []; printed := [] |}
                    0 [Some (JDict r1); Some (JDict r2)]))
       = (MAX_JSON_CHUNK_SIZE_BYTES, 0, [t1; t2], [])
    /\ chunk_byte_size [t3] = 5 * 1024 * 1024.
Proof.
  intros path r1 r2 r3 t1 t2 t3 E1 E2 E3 L1 L2 L3.
  assert (S1 : forall out n,
    process_line path {| current_chunk_size := 0; chunk_file_index := 0;
                         output_data_list := []; written := []; printed := out |}
                 n (Some (JDict r1))
    = Ok {| current_chunk_size := 0 + utf8_len t1; chunk_file_index := 0;
            output_data_list := [t1]; written := []; printed := out |}).
  { intros out n. rewrite process_line_keep by (assumption || (right; simpl; lia)).
    reflexivity. }
  assert (S2 : forall out n,
    process_line path {| current_chunk_size := 0 + utf8_len t1; chunk_file_index := 0;
                         output_data_list := [t1]; written := []; printed := out |}
                 n (Some (JDict r2))
    = Ok {| current_chunk_size := 0 + utf8_len t1 + utf8_len t2; chunk_file_index := 0;
            output_data_list := [t1; t2]; written := []; printed := out |}).
  { intros out n. rewrite process_line_keep; [reflexivity|assumption|].
    left. cbn [current_chunk_size]. fold t2. rewrite L1, L2. reflexivity. }
  assert (S3 : forall out n,
    process_line path {| current_chunk_size := 0 + utf8_len t1 + utf8_len t2;
                         chunk_file_index := 0;
                         output_data_list := [t1; t2]; written := []; printed := out |}
                 n (Some (JDict r3))
    = Ok {| current_chunk_size := 0 + utf8_len t3; chunk_file_index := 0 + 1;
            output_data_list := [t3]; written := [(0, [t1; t2])]; printed := out |}).
  { intros out n. rewrite process_line_roll; [reflexivity|assumption| |];
      cbn [current_chunk_size]; fold t3; rewrite L1, L2, ?L3; reflexivity. }
  unfold split_and_process_jsonl. cbn [for_each_line].
  rewrite !S1, !S2, S3. cbn [fst snd written output_data_list chunk_file_index core
                             current_chunk_size].
  repeat split.
  - rewrite L1, L2. reflexivity.
  - cbn [chunk_byte_size fold_right]. rewrite L3. reflexivity.
Qed.

End ScenarioA.

Lemma three_records_two_chunks_witness :
  let path := lit "d.jsonl" in
  let r20 := big_record 20971487 in
  let r5 := big_record 5242847 in
  let t20 := process_json_record (rt := ascii_runtime) r20 (basename path) in
  let t5 := process_json_record (rt := ascii_runtime) r5 (basename path) in
  (encodable t20 = true /\ encodable t5 = true
   /\ utf8_len t20 = 20 * 1024 * 1024 /\ utf8_len t5 = 5 * 1024 * 1024)
  /\ written (fst (split_and_process_jsonl (rt := ascii_runtime) path
                     [Some (JDict r20); Some (JDict r20); Some (JDict r5)]))
     = [(0, [t20; t20]); (1, [t5])].
Proof.
  intros path r20 r5 t20 t5.
  assert (E20 : encodable t20 = true)
    by (apply big_narrative_encodable; reflexivity).
  assert (E5 : encodable t5 = true)
    by (apply big_narrative_encodable; reflexivity).
  assert (L20 : utf8_len t20 = 20 * 1024 * 1024)
    by (unfold t20, r20; rewrite big_narrative_len; reflexivity).
  assert (L5 : utf8_len t5 = 5 * 1024 * 1024)
    by (unfold t5, r5; rewrite big_narrative_len; reflexivity).
  split; [exact (conj E20 (conj E5 (conj L20 L5)))|].
  exact (proj1 (three_records_two_chunks (rt := ascii_runtime) path r20 r20 r5
                  E20 E20 E5 L20 L20 L5)).
Defined.

(** * The bytes of a chunk file *)

Lemma file_bytes_write (base : pystr) (index : Z) (chunk : list pystr) :
  chunk <> [] ->
  file_bytes (write_json_chunk base index chunk)
  = chunk_byte_size chunk + 7 * (Z.of_nat (length chunk) - 1).
Proof.
  intros Hne. unfold file_bytes, write_json_chunk. cbn [snd].
  now rewrite utf8_len_join.
Qed.

(** C4, as stated, fails twice over.  Two narratives of 20 MB fill one chunk
    to the ceiling, and the file holds the separator between them besides:
    7 bytes more than the ceiling.  And a single narrative of 45 MB is written
    out whole. *)
Lemma file_ceiling_counterexample :
  let path := lit "d.jsonl" in
  let r20 := big_record 20971487 in
  let r45 := big_record 47185887 in
  (map file_bytes
       (emitted_files path
          (split_and_process_jsonl (rt := ascii_runtime) path
             [Some (JDict r20); Some (JDict r20)]))
   = [MAX_JSON_CHUNK_SIZE_BYTES + 7]
   /\ map file_bytes
        (emitted_files path
           (split_and_process_jsonl (rt := ascii_runtime) path [Some (JDict r45)]))
      = [45 * 1024 * 1024])
  /\ (MAX_JSON_CHUNK_SIZE_BYTES <? MAX_JSON_CHUNK_SIZE_BYTES + 7) = true
  /\ (MAX_JSON_CHUNK_SIZE_BYTES <? 45 * 1024 * 1024) = true.
Proof.
  intros path r20 r45.
  set (t20 := process_json_record (rt := ascii_runtime) r20 (basename path)).
  set (t45 := process_json_record (rt := ascii_runtime) r45 (basename path)).
  assert (E20 : encodable t20 = true)
    by (apply big_narrative_encodable; reflexivity).
  assert (E45 : encodable t45 = true)
    by (apply big_narrative_encodable; reflexivity).
  assert (L20 : utf8_len t20 = 20 * 1024 * 1024)
    by (unfold t20, r20; rewrite big_narrative_len; reflexivity).
  assert (L45 : utf8_len t45 = 45 * 1024 * 1024)
    by (unfold t45, r45; rewrite big_narrative_len; reflexivity).
  split; [split|split; reflexivity].
  - unfold emitted_files.
    rewrite (run_two_fit (rt := ascii_runtime) path r20 r20 E20 E20)
      by (fold t20; rewrite L20; discriminate).
    cbn [map]. rewrite file_bytes_write by discriminate.
    fold t20. cbn [chunk_byte_size fold_right length]. rewrite L20. reflexivity.
  - unfold emitted_files.
    rewrite (proj1 (run_one (rt := ascii_runtime) path r45 E45)).
    cbn [map]. rewrite file_bytes_write by discriminate.
    fold t45. cbn [chunk_byte_size fold_right length]. rewrite L45. reflexivity.
Qed.

Section FileBytes.
Context {rt : PyRuntime}.

(** C4, amended.  A chunk file holds its narratives and one separator of 7
    bytes between each two: its size is the byte counter of the chunk plus
    7 for each of the [k - 1] separators, so at most the ceiling plus
    [7 * (k - 1)], unless it is a single narrative larger than the ceiling,
    which it then holds whole. *)
Theorem emitted_file_bytes :
  forall (path : pystr) (lines : list (option json)),
    Forall (fun w =>
              let file := write_json_chunk (output_filename_base path) (fst w) (snd w) in
              let k := Z.of_nat (length (snd w)) in
              file_bytes file = chunk_byte_size (snd w) + 7 * (k - 1)
              /\ (file_bytes file <= MAX_JSON_CHUNK_SIZE_BYTES + 7 * (k - 1)
                  \/ exists t, snd w = [t]
                               /\ MAX_JSON_CHUNK_SIZE_BYTES < utf8_len t
                               /\ file_bytes file = utf8_len t))
           (written (fst (split_and_process_jsonl path lines))).
Proof.
  intros path lines.
  eapply Forall_impl; [|exact (proj1 (split_written path lines))].
  intros [index chunk] [Hok Hne]. cbn [fst snd] in *.
  rewrite file_bytes_write by assumption.
  split; [reflexivity|].
  destruct Hok as [Hfit|[t [-> Ht]]].
  - left. unfold within_ceiling in Hfit. lia.
  - right. exists t. repeat split; [exact Ht|]. simpl. lia.
Qed.

End FileBytes.

(** * Malformed lines *)

Section Malformed.
Context {rt : PyRuntime}.







Lemma for_each_line_app (path : pystr) (l1 l2 : list (option json)) :
  forall (st : splitter) (n : Z),
    snd (for_each_line path st n l1) = None ->
    for_each_line path st n (l1 ++ l2)
    = for_each_line path (fst (for_each_line path st n l1))
        (n + Z.of_nat (length l1)) l2.
Proof.
  induction l1 as [|line l1 IH]; intros st n Hret.
  - cbn. now rewrite Z.add_0_r.
  - cbn [app for_each_line] in *.
    destruct (process_line path st n line) as [st'|e]; [|discriminate].
    rewrite IH by exact Hret. f_equal. cbn [length]. lia.
Qed.



End Malformed.

(** * Chunk file names *)

Lemma str_ltb_app_prefix (p a b : pystr) : str_ltb (p ++ a) (p ++ b) = str_ltb a b.
Proof.
  induction p as [|x p IH]; [reflexivity|].
  cbn [app str_ltb]. now rewrite N.ltb_irrefl, N.eqb_refl, IH.
Qed.

Lemma index_suffixes_1000 : strictly_increasing (index_suffixes 1000) = true.
Proof. vm_compute. reflexivity. Qed.

Lemma strictly_increasing_nth (l : list pystr) :
  strictly_increasing l = true ->
  forall (i j : nat) (a b : pystr),
    nth_error l i = Some a -> nth_error l j = Some b -> (i < j)%nat ->
    str_ltb a b = true.
Proof.
  induction l as [|x rest IH]; intros Hinc i j a b Ha Hb Hij.
  - destruct i; discriminate.
  - cbn [strictly_increasing] in Hinc. apply andb_true_iff in Hinc as [Hx Hrest].
    destruct j as [|j]; [lia|]. cbn [nth_error] in Hb.
    destruct i as [|i].
    + injection Ha as <-. rewrite forallb_forall in Hx.
      apply Hx. eapply nth_error_In. exact Hb.
    + cbn [nth_error] in Ha. apply (IH Hrest i j); (assumption || lia).
Qed.

Lemma index_suffixes_nth (bound i : nat) :
  (i < bound)%nat ->
  nth_error (index_suffixes bound) i
  = Some (format_03d (Z.of_nat i) ++ lit ".txt").
Proof.
  intros Hi. unfold index_suffixes.
  rewrite nth_error_map, nth_error_seq.
  now rewrite (proj2 (Nat.ltb_lt _ _) Hi).
Qed.

Lemma chunk_filename_ordered (base : pystr) (i j : nat) :
  (i < j)%nat -> (j < 1000)%nat ->
  str_ltb (chunk_filename base (Z.of_nat i)) (chunk_filename base (Z.of_nat j)) = true.
Proof.
  intros Hij Hj. unfold chunk_filename.
  rewrite !str_ltb_app_prefix.
  apply (strictly_increasing_nth _ index_suffixes_1000 i j);
    [apply index_suffixes_nth; lia|apply index_suffixes_nth; lia|exact Hij].
Qed.

Lemma nth_error_number_from (ts : list pystr) :
  forall (i : Z) (k : nat),
    nth_error (number_from i ts) k
    = option_map (fun t => (i + Z.of_nat k, [t])) (nth_error ts k).
Proof.
  induction ts as [|t ts IH]; intros i k.
  - destruct k; reflexivity.
  - destruct k as [|k].
    + cbn. now rewrite Z.add_0_r.
    + cbn [number_from nth_error]. rewrite IH.
      destruct (nth_error ts k); cbn [option_map]; [|reflexivity].
      do 2 f_equal. lia.
Qed.

Section Names.
Context {rt : PyRuntime}.

(** The files of a call are numbered from zero in the order they are
    written. *)
Lemma emitted_filenames_nth (path : pystr) (lines : list (option json))
  (i : nat) (f : pystr) :
  nth_error (emitted_filenames path (split_and_process_jsonl path lines)) i = Some f ->
  f = chunk_filename (output_filename_base path) (Z.of_nat i).
Proof.
  unfold emitted_filenames.
  rewrite <- (map_map fst (chunk_filename (output_filename_base path))).
  rewrite (proj2 (split_written path lines)), map_map, nth_error_map, nth_error_seq.
  destruct (_ <? _)%nat; cbn [option_map]; [|discriminate].
  now intros [= <-].
Qed.

(** C9, amended.  The files are named [<base>_part_<index>.txt], the index
    counting the chunks from zero and written with at least three digits;
    among the first thousand chunks of a call the names are in lexicographic
    order as the chunks are in emission order. *)
Theorem chunk_names_ordered :
  forall (path : pystr) (lines : list (option json)) (i j : nat) (fi fj : pystr),
    nth_error (emitted_filenames path (split_and_process_jsonl path lines)) i = Some fi ->
    nth_error (emitted_filenames path (split_and_process_jsonl path lines)) j = Some fj ->
    (i < j)%nat -> (j < 1000)%nat ->
    fi = output_filename_base path ++ lit "_part_" ++ format_03d (Z.of_nat i) ++ lit ".txt"
    /\ fj = output_filename_base path ++ lit "_part_" ++ format_03d (Z.of_nat j) ++ lit ".txt"
    /\ str_ltb fi fj = true.
Proof.
  intros path lines i j fi fj Hi Hj Hij Hbound.
  apply emitted_filenames_nth in Hi, Hj. subst fi fj.
  split; [reflexivity|]. split; [reflexivity|].
  now apply chunk_filename_ordered.
Qed.

(** A run of records that are each larger than the ceiling: one chunk per
    record. *)
Lemma oversized_loop (path : pystr) (lines : list (option json)) :
  Forall (oversized_line path) lines ->
  forall (st : splitter) (n : Z) (t0 : pystr),
    output_data_list st = [t0] ->
    0 < current_chunk_size st ->
    snd (for_each_line path st n lines) = None
    /\ exists t',
         output_data_list (fst (for_each_line path st n lines)) = [t']
         /\ written (fst (for_each_line path st n lines))
            ++ [(chunk_file_index (fst (for_each_line path st n lines)), [t'])]
            = written st
              ++ number_from (chunk_file_index st) (t0 :: narratives_of path lines).
Proof.
  induction 1 as [|line lines Hline _ IH]; intros st n t0 Hodl Hpos.
  - cbn [for_each_line fst snd]. split; [reflexivity|].
    exists t0. split; [exact Hodl|reflexivity].
  - destruct line as [v|]; [|contradiction].
    destruct v as [| | | | | |record]; try contradiction.
    destruct Hline as [Henc Hbig].
    pose proof (utf8_len_nonneg (process_json_record record (basename path))).
    cbn [for_each_line].
    rewrite process_line_roll by (assumption || lia).
    match goal with
    | |- context [for_each_line path ?s ?m lines] =>
        destruct (IH s m (process_json_record record (basename path)) eq_refl)
          as [Hret [t' [Hodl' Hwr]]]
    end.
    { cbn [current_chunk_size]. unfold MAX_JSON_CHUNK_SIZE_BYTES in Hbig. lia. }
    split; [exact Hret|]. exists t'. split; [exact Hodl'|].
    rewrite Hwr. cbn [written chunk_file_index narratives_of flat_map].
    rewrite Hodl, <- app_assoc. reflexivity.
Qed.

Lemma oversized_run (path : pystr) (lines : list (option json)) :
  Forall (oversized_line path) lines ->
  written (fst (split_and_process_jsonl path lines))
  = number_from 0 (narratives_of path lines).
Proof.
  intros Hall. destruct Hall as [|line lines Hline Hrest]; [reflexivity|].
  destruct line as [v|]; [|contradiction].
  destruct v as [| | | | | |record]; try contradiction.
  destruct Hline as [Henc Hbig].
  unfold split_and_process_jsonl. cbn [for_each_line].
  rewrite process_line_keep by (assumption || (right; simpl; lia)).
  match goal with
  | |- context [for_each_line path ?s ?m lines] =>
      destruct (oversized_loop path lines Hrest s m
                  (process_json_record record (basename path)) eq_refl)
        as [Hret [t' [Hodl' Hwr]]]
  end.
  { cbn [current_chunk_size]. unfold MAX_JSON_CHUNK_SIZE_BYTES in Hbig. lia. }
  match goal with
  | |- context [for_each_line path ?s ?m lines] =>
      destruct (for_each_line path s m lines) as [st e]
  end.
  cbn [fst snd] in *. subst e. rewrite Hodl'. cbn [fst written].
  rewrite Hwr. reflexivity.
Qed.

Lemma narratives_of_repeat (path : pystr) (record : list (pystr * json)) (k : nat) :
  narratives_of path (repeat (Some (JDict record)) k)
  = repeat (process_json_record record (basename path)) k.
Proof.
  induction k as [|k IH]; [reflexivity|].
  cbn [repeat narratives_of flat_map app]. f_equal. exact IH.
Qed.

(** The name of the [i]-th file when [k] such records are split. *)
Lemma oversized_filenames (path : pystr) (record : list (pystr * json)) (k i : nat) :
  encodable (process_json_record record (basename path)) = true ->
  MAX_JSON_CHUNK_SIZE_BYTES < utf8_len (process_json_record record (basename path)) ->
  (i < k)%nat ->
  nth_error (emitted_filenames path
               (split_and_process_jsonl path (repeat (Some (JDict record)) k))) i
  = Some (chunk_filename (output_filename_base path) (Z.of_nat i)).
Proof.
  intros Henc Hbig Hik. unfold emitted_filenames.
  rewrite oversized_run.
  - rewrite nth_error_map, nth_error_number_from, narratives_of_repeat.
    rewrite nth_error_repeat by exact Hik. reflexivity.
  - apply Forall_forall. intros line Hin. apply repeat_spec in Hin. subst line.
    split; assumption.
Qed.

End Names.

(** C9, as stated, fails from the thousand-and-first chunk on: the index is
    padded to three digits only, so chunk 1000 is named before chunk 999.  A
    file of 1001 records of 40 MB each is split into that many chunks. *)
Lemma naming_order_counterexample :
  let path := lit "d.jsonl" in
  let lines := repeat (Some (JDict (big_record 41943040))) 1001 in
  let names :=
    emitted_filenames path (split_and_process_jsonl (rt := ascii_runtime) path lines) in
  (nth_error names 999 = Some (lit "d_part_999.txt")
   /\ nth_error names 1000 = Some (lit "d_part_1000.txt"))
  /\ str_ltb (lit "d_part_999.txt") (lit "d_part_1000.txt") = false
  /\ str_ltb (lit "d_part_1000.txt") (lit "d_part_999.txt") = true.
Proof.
  intros path lines names.
  assert (Henc : encodable (process_json_record (rt := ascii_runtime)
                              (big_record 41943040) (basename path)) = true)
    by (apply big_narrative_encodable; reflexivity).
  assert (Hbig : MAX_JSON_CHUNK_SIZE_BYTES
                 < utf8_len (process_json_record (rt := ascii_runtime)
                               (big_record 41943040) (basename path)))
    by (rewrite big_narrative_len; reflexivity).
  split; [split|split; reflexivity].
  - unfold names, lines.
    rewrite (oversized_filenames (rt := ascii_runtime) path _ 1001 999 Henc Hbig)
      by (apply Nat.ltb_lt; reflexivity).
    reflexivity.
  - unfold names, lines.
    rewrite (oversized_filenames (rt := ascii_runtime) path _ 1001 1000 Henc Hbig)
      by (apply Nat.ltb_lt; reflexivity).
    reflexivity.
Qed.

Lemma chunk_names_ordered_witness :
  let path := lit "d.jsonl" in
  let lines := repeat (Some (JDict (big_record 41943040))) 2 in
  let names :=
    emitted_filenames path (split_and_process_jsonl (rt := ascii_runtime) path lines) in
  (nth_error names 0 = Some (lit "d_part_000.txt")
   /\ nth_error names 1 = Some (lit "d_part_001.txt"))
  /\ str_ltb (lit "d_part_000.txt") (lit "d_part_001.txt") = true.
Proof.
  intros path lines names.
  assert (Henc : encodable (process_json_record (rt := ascii_runtime)
                              (big_record 41943040) (basename path)) = true)
    by (apply big_narrative_encodable; reflexivity).
  assert (Hbig : MAX_JSON_CHUNK_SIZE_BYTES
                 < utf8_len (process_json_record (rt := ascii_runtime)
                               (big_record 41943040) (basename path)))
    by (rewrite big_narrative_len; reflexivity).
  assert (H0 : nth_error names 0 = Some (lit "d_part_000.txt")).
  { unfold names, lines.
    rewrite (oversized_filenames (rt := ascii_runtime) path _ 2 0 Henc Hbig)
      by (apply Nat.ltb_lt; reflexivity).
    reflexivity. }
  assert (H1 : nth_error names 1 = Some (lit "d_part_001.txt")).
  { unfold names, lines.
    rewrite (oversized_filenames (rt := ascii_runtime) path _ 2 1 Henc Hbig)
      by (apply Nat.ltb_lt; reflexivity).
    reflexivity. }
  split; [exact (conj H0 H1)|].
  exact (proj2 (proj2 (chunk_names_ordered (rt := ascii_runtime) path lines 0 1
                         _ _ H0 H1 (Nat.lt_0_1) (proj1 (Nat.ltb_lt 1 1000) eq_refl)))).
Defined.

(** * Redaction *)

Section Redaction.
Context {rt : PyRuntime}.

(** C3 does not hold of the code: the single-process splitter writes the
    narrative as the normaliser made it.  A record that names a patient is
    written out with the name in it and no marker, where [redact], the filter
    of the distributed job, would have masked the name and put the marker in
    front. *)
Theorem single_process_output_unredacted :
  emitted_files (lit "raw/json/data.jsonl")
    (split_and_process_jsonl (lit "raw/json/data.jsonl")
       [Some (JDict [(lit "name", JStr (lit "John Smith"));
                     (lit "role", JStr (lit "patient"))])])
  = [(lit "remap-my-rag-source-data/processed/json_chunks/data_part_000.txt",
      lit "SOURCE FILE: data.jsonl. The Name is: John Smith. The Role is: patient.")]
  /\ redact (lit "SOURCE FILE: data.jsonl. The Name is: John Smith. The Role is: patient.")
     = lit "[HIPAA REDACTION APPLIED] SOURCE FILE: data.jsonl. The Name is: [PHI_NAME_MASKED]. The Role is: patient.".
Proof. split; vm_compute; reflexivity. Qed.

End Redaction.

(** * The file classifier *)




Section Classifier.
Context {rt : PyRuntime}.

(** The chain of tests, table by table. *)
Lemma classify_tables (subdir filename : pystr) :
  classify subdir filename
  = if endswith_any (lower filename) image_extensions then Quarantine
    else if endswith_any (lower filename) document_extensions then PassThrough
    else if endswith_any (lower filename) [lit ".jsonl"]
            && contains subdir (lit "json/") then Deferred
    else Unknown.
Proof.
  unfold classify, image_extensions, document_extensions.
  change (endswith_any (lower filename) [lit ".jsonl"])
    with (endswith (lower filename) (lit ".jsonl") || false).
  now rewrite orb_false_r.
Qed.


End Classifier.

(** * Fields without a rule *)

Section Unrendered.
Context {rt : PyRuntime}.

(** C10.  A field whose value is no int, float or str (a bool counts as an
    int, as in Python) and no dict under the key [patient_details] adds
    nothing to the narrative: the turn of the loop for it leaves the parts as
    they are, and two records that agree once such fields are taken out have
    the same narrative. *)
Theorem unrendered_fields_omitted :
  (forall (key : pystr) (value : json) (parts : list pystr),
      unrendered key value = true -> narrative_step parts (key, value) = parts)
  /\ (forall (r1 r2 : list (pystr * json)) (filename : pystr),
        drop_unrendered r1 = drop_unrendered r2 ->
        process_json_record r1 filename = process_json_record r2 filename).
Proof.
  split.
  - intros key value parts H.
    rewrite narrative_step_spec, (rendered_unrendered _ _ H). apply app_nil_r.
  - intros r1 r2 filename H.
    rewrite !process_json_record_sentences.
    rewrite <- (rendered_sentences_drop r1), <- (rendered_sentences_drop r2).
    now rewrite H.
Qed.

End Unrendered.

Lemma unrendered_fields_omitted_witness :
  let r1 := [(lit "age", JInt 36);
             (lit "tags", JList [JStr (lit "a"); JInt 2]);
             (lit "note", JNull);
             (lit "address", JDict [(lit "city", JStr (lit "Oslo"))])] in
  let r2 := [(lit "age", JInt 36)] in
  drop_unrendered r1 = drop_unrendered r2
  /\ process_json_record (rt := ascii_runtime) r1 (lit "data.jsonl")
     = lit "SOURCE FILE: data.jsonl. The Age is: 36."
  /\ process_json_record (rt := ascii_runtime) r1 (lit "data.jsonl")
     = process_json_record (rt := ascii_runtime) r2 (lit "data.jsonl").
Proof.
  intros r1 r2.
  assert (H : drop_unrendered r1 = drop_unrendered r2) by reflexivity.
  split; [exact H|]. split; [reflexivity|].
  exact (proj2 (unrendered_fields_omitted (rt := ascii_runtime)) r1 r2
           (lit "data.jsonl") H).
Defined.


(** * Examples *)

Example str_int_examples :
  str_int 0 = lit "0" /\ str_int 1204 = lit "1204" /\ str_int (-37) = lit "-37".
Proof. repeat split; reflexivity. Qed.

Example format_03d_examples :
  format_03d 0 = lit "000" /\ format_03d 42 = lit "042" /\
  format_03d 999 = lit "999" /\ format_03d 1000 = lit "1000" /\
  format_03d (-5) = lit "-05".
Proof. repeat split; reflexivity. Qed.

Example replace_examples :
  replace (lit "a_b__c") (lit "_") (lit " ") = lit "a b  c" /\
  replace (lit "x.jsonl.jsonl") (lit ".jsonl") [] = lit "x" /\
  replace (lit "aaa") (lit "aa") (lit "b") = lit "ba" /\
  replace (lit "ab") [] (lit "-") = lit "-a-b-".
Proof. repeat split; reflexivity. Qed.

Example path_examples :
  basename (lit "raw/json/big.jsonl") = lit "big.jsonl" /\
  basename (lit "big.jsonl") = lit "big.jsonl" /\
  basename (lit "raw/json/") = [] /\
  path_join (lit "raw/") (lit "json") = lit "raw/json" /\
  path_join (lit "raw") (lit "json") = lit "raw/json".
Proof. repeat split; reflexivity. Qed.

Example case_examples :
  lower (rt := ascii_runtime) (lit "Photo.JPG") = lit "photo.jpg" /\
  title (rt := ascii_runtime) (lit "first name") = lit "First Name" /\
  title (rt := ascii_runtime) (lit "mcDONALD 2nd") = lit "Mcdonald 2Nd".
Proof. repeat split; reflexivity. Qed.

Example process_json_record_example :
  process_json_record (rt := ascii_runtime)
    [(lit "id", JInt 17);
     (lit "patient_details", JDict [(lit "patient_id", JInt 42)]);
     (lit "first_name", JStr (lit "ada"));
     (lit "active", JBool true);
     (lit "tags", JList [JInt 1]);
     (lit "visits", JInt 3)]
    (lit "data.jsonl")
  = lit "SOURCE FILE: data.jsonl. Patient ID: 42. Diagnosis: N/A. The First Name is: ada. The Active is: True. The Visits is: 3.".
Proof. reflexivity. Qed.

Example process_content_example :
  process_content_udf (rt := ascii_runtime)
    [lit "Patient John Smith, SSN on file"; lit "quarterly figures"]
    [lit ".txt"; lit ".csv"]
  = [lit "[HIPAA REDACTION APPLIED] Patient [PHI_NAME_MASKED], SSN on file";
     lit "TABULAR DATA NARRATIVE: Summary of sheet: quarterly figures..."].
Proof. reflexivity. Qed.

(** * Further properties of the file classifier *)

(** A name that ends in [.jsonl] ends in no extension of the two tables. *)
Lemma jsonl_not_in_tables (s : pystr) :
  endswith s (lit ".jsonl") = true ->
  endswith_any s image_extensions = false
  /\ endswith_any s document_extensions = false.
Proof.
  unfold endswith_any, image_extensions, document_extensions, endswith.
  cbn [existsb]. intros H.
  destruct (rev s) as [|c1 [|c2 r]]; cbn -[N.eqb] in H; try discriminate H.
  { rewrite andb_false_r in H. discriminate H. }
  apply andb_true_iff in H as [H1 H].
  apply andb_true_iff in H as [H2 _].
  apply N.eqb_eq in H1, H2. subst c1 c2. split; reflexivity.
Qed.

(** The loops of [process_unstructured_files], file by file. *)
Lemma process_unstructured_files_spec {rt : PyRuntime}
  (walk : list (pystr * list pystr)) :
  process_unstructured_files walk
  = (flat_map (fun '(subdir, files) =>
                 flat_map (fun filename =>
                             match fst (handle_file subdir filename) with
                             | Some r => [r]
                             | None => []
                             end) files) walk,
     (10%N :: lit "Starting unstructured file check (PPTX, Images, Docs)...")
     :: flat_map (fun '(subdir, files) =>
                    flat_map (fun filename =>
                                match snd (handle_file subdir filename) with
                                | Some m => [m]
                                | None => []
                                end) files) walk).
Proof.
  unfold process_unstructured_files.
  match goal with
  | |- fold_left ?f walk ?init = _ =>
      assert (Hgen : forall acc,
                 fold_left f walk acc
                 = (fst acc
                    ++ flat_map (fun '(subdir, files) =>
                         flat_map (fun filename =>
                                     match fst (handle_file subdir filename) with
                                     | Some r => [r]
                                     | None => []
                                     end) files) walk,
                    snd acc
                    ++ flat_map (fun '(subdir, files) =>
                         flat_map (fun filename =>
                                     match snd (handle_file subdir filename) with
                                     | Some m => [m]
                                     | None => []
                                     end) files) walk))
  end.
  { induction walk as [|[subdir files] walk IH]; intros acc.
    - cbn. rewrite !app_nil_r. now destruct acc.
    - cbn [fold_left flat_map]. rewrite IH. clear IH.
      revert acc. induction files as [|filename files IHf]; intros acc.
      + cbn. reflexivity.
      + cbn [fold_left flat_map]. rewrite IHf.
        destruct (handle_file subdir filename) as [rename message].
        cbn [fst snd]. now rewrite <- !app_assoc. }
  rewrite Hgen. reflexivity.
Qed.

Section ClassifierMore.
Context {rt : PyRuntime}.

(** X1.  The test for the structured-data directory looks for [json/] in
    the directory path as the walk gives it.  The directory [json] right
    under [RAW_ROOT] is walked as [remap-my-rag-source-data/raw/json], with
    no slash at its end: every [.jsonl] file in it is classified unknown and
    logged as skipped, not deferred.  One directory further down it is
    deferred. *)
Theorem structured_input_classified_unknown :
  forall (filename : pystr),
    endswith (lower filename) (lit ".jsonl") = true ->
    path_join RAW_ROOT (lit "json") = lit "remap-my-rag-source-data/raw/json"
    /\ classify (path_join RAW_ROOT (lit "json")) filename = Unknown
    /\ handle_file (path_join RAW_ROOT (lit "json")) filename
       = (None, Some (lit "  [SKIPPED] Unknown file type " ++ filename ++ lit "."))
    /\ forall deeper, classify (path_join RAW_ROOT (lit "json/" ++ deeper)) filename
                      = Deferred.
Proof.
  intros filename Hj.
  destruct (jsonl_not_in_tables _ Hj) as [Hi Hd].
  assert (Hc : forall subdir,
             classify subdir filename
             = if contains subdir (lit "json/") then Deferred else Unknown).
  { intros subdir. unfold classify. fold image_extensions document_extensions.
    now rewrite Hi, Hd, Hj. }
  split; [reflexivity|]. split; [|split].
  - rewrite Hc. reflexivity.
  - unfold handle_file. rewrite Hc. reflexivity.
  - intros deeper. rewrite Hc.
    change (path_join RAW_ROOT (lit "json/" ++ deeper))
      with (lit "remap-my-rag-source-data/raw/" ++ lit "json/" ++ deeper).
    assert (Hin : forall (pre rest : pystr),
               contains (pre ++ lit "json/" ++ rest) (lit "json/") = true).
    { induction pre as [|c pre IH]; intros rest.
      - cbn [app]. destruct rest; cbn; now rewrite ?N.eqb_refl.
      - cbn [app contains]. rewrite IH. apply orb_true_r. }
    now rewrite Hin.
Qed.

End ClassifierMore.

Lemma structured_input_classified_unknown_witness :
  endswith (lower (rt := ascii_runtime) (lit "large_raw_data.jsonl")) (lit ".jsonl") = true
  /\ handle_file (rt := ascii_runtime) (path_join RAW_ROOT (lit "json"))
       (lit "large_raw_data.jsonl")
     = (None, Some (lit "  [SKIPPED] Unknown file type large_raw_data.jsonl.")).
Proof.
  assert (H : endswith (lower (rt := ascii_runtime) (lit "large_raw_data.jsonl"))
                (lit ".jsonl") = true) by reflexivity.
  split; [exact H|].
  exact (proj1 (proj2 (proj2 (structured_input_classified_unknown
                                (rt := ascii_runtime) (lit "large_raw_data.jsonl") H)))).
Defined.

Section Relocation.
Context {rt : PyRuntime}.

Lemma handle_file_rename (subdir filename : pystr) (src dst : pystr) :
  fst (handle_file subdir filename) = Some (src, dst) ->
  src = path_join subdir filename
  /\ ((endswith_any (lower filename) image_extensions = true
       /\ dst = path_join (path_join PROCESSED_ROOT (lit "unsupported_files")) filename)
      \/ (endswith_any (lower filename) image_extensions = false
          /\ endswith_any (lower filename) document_extensions = true
          /\ dst = path_join (path_join PROCESSED_ROOT (lit "documents")) filename)).
Proof.
  unfold handle_file. rewrite classify_tables.
  destruct (endswith_any (lower filename) image_extensions).
  - cbn [fst]. intros [= <- <-]. split; [reflexivity|]. left. now split.
  - destruct (endswith_any (lower filename) document_extensions).
    + cbn [fst]. intros [= <- <-]. split; [reflexivity|]. right. now repeat split.
    + destruct (_ && _); cbn [fst]; discriminate.
Qed.

(** X2.  [process_unstructured_files] moves a file only when its lowercased
    name ends in an image extension (to [unsupported_files]) or, failing that,
    in a document extension (to [documents]), and every move it makes is of a
    file of the walk under its own name.  A file whose name ends in [.jsonl]
    is never moved: the input of the splitter is still in place when the main
    block calls it. *)
Theorem only_images_and_documents_move :
  forall (walk : list (pystr * list pystr)) (src dst : pystr),
    In (src, dst) (fst (process_unstructured_files walk)) ->
    exists subdir files filename,
      In (subdir, files) walk /\ In filename files
      /\ src = path_join subdir filename
      /\ ((endswith_any (lower filename) image_extensions = true
           /\ dst = path_join (path_join PROCESSED_ROOT (lit "unsupported_files")) filename)
          \/ (endswith_any (lower filename) image_extensions = false
              /\ endswith_any (lower filename) document_extensions = true
              /\ dst = path_join (path_join PROCESSED_ROOT (lit "documents")) filename))
      /\ endswith (lower filename) (lit ".jsonl") = false.
Proof.
  intros walk src dst Hin.
  rewrite process_unstructured_files_spec in Hin. cbn [fst] in Hin.
  apply in_flat_map in Hin as [[subdir files] [Hdir Hin]].
  apply in_flat_map in Hin as [filename [Hfile Hin]].
  destruct (fst (handle_file subdir filename)) as [[s d]|] eqn:Hmove; [|contradiction].
  destruct Hin as [[= -> ->]|[]].
  destruct (handle_file_rename _ _ _ _ Hmove) as [Hsrc Hdst].
  exists subdir, files, filename. repeat split; try assumption.
  destruct (endswith (lower filename) (lit ".jsonl")) eqn:Hj; [|reflexivity].
  destruct (jsonl_not_in_tables _ Hj) as [Hi Hd].
  destruct Hdst as [[Hi' _]|[_ [Hd' _]]]; congruence.
Qed.

(** X3.  Where a file is moved to does not depend on the directory it was
    found in: the destination is the category directory followed by the bare
    file name.  Two files of the same name from different directories are
    given the same destination. *)
Theorem destination_ignores_directory :
  forall (subdir1 subdir2 filename : pystr),
    option_map snd (fst (handle_file subdir1 filename))
    = option_map snd (fst (handle_file subdir2 filename))
    /\ (startswith filename [47%N] = false ->
        forall src dst,
          fst (handle_file subdir1 filename) = Some (src, dst) ->
          dst = lit "remap-my-rag-source-data/processed/unsupported_files/" ++ filename
          \/ dst = lit "remap-my-rag-source-data/processed/documents/" ++ filename).
Proof.
  intros subdir1 subdir2 filename. split.
  - unfold handle_file. rewrite !classify_tables.
    destruct (endswith_any (lower filename) image_extensions); [reflexivity|].
    destruct (endswith_any (lower filename) document_extensions); [reflexivity|].
    destruct (_ && contains subdir1 _), (_ && contains subdir2 _); reflexivity.
  - intros Hrel src dst Hmove.
    apply handle_file_rename in Hmove as [_ [[_ ->]|[_ [_ ->]]]];
      [left|right]; unfold path_join at 1; rewrite Hrel; reflexivity.
Qed.

End Relocation.

Lemma only_images_and_documents_move_witness :
  let walk := [(RAW_ROOT, [lit "photo.JPG"; lit "notes.csv"]);
               (path_join RAW_ROOT (lit "json"),
                [lit "large_raw_data.jsonl"; lit "Report.PDF"])] in
  fst (process_unstructured_files (rt := ascii_runtime) walk)
  = [(lit "remap-my-rag-source-data/raw/photo.JPG",
      lit "remap-my-rag-source-data/processed/unsupported_files/photo.JPG");
     (lit "remap-my-rag-source-data/raw/json/Report.PDF",
      lit "remap-my-rag-source-data/processed/documents/Report.PDF")]
  /\ exists subdir files filename,
       In (subdir, files) walk /\ In filename files
       /\ endswith (lower (rt := ascii_runtime) filename) (lit ".jsonl") = false.
Proof.
  intros walk. split; [reflexivity|].
  assert (Hin : In (lit "remap-my-rag-source-data/raw/json/Report.PDF",
                    lit "remap-my-rag-source-data/processed/documents/Report.PDF")
                   (fst (process_unstructured_files (rt := ascii_runtime) walk)))
    by (right; left; reflexivity).
  destruct (only_images_and_documents_move (rt := ascii_runtime) walk _ _ Hin)
    as [subdir [files [filename [Hd [Hf [_ [_ Hj]]]]]]].
  exists subdir, files, filename. repeat split; assumption.
Defined.

(** * Further properties of the chunk files *)

Lemma basename_no_slash (p : pystr) : no_slash (basename p).
Proof.
  unfold basename.
  assert (Hgen : forall acc, no_slash acc ->
            no_slash (fold_left (fun acc c => if N.eqb c 47 then [] else acc ++ [c])
                        p acc)).
  { induction p as [|c p IH]; intros acc Hacc; [exact Hacc|].
    cbn [fold_left]. apply IH. destruct (N.eqb_spec c 47); [constructor|].
    apply Forall_app. split; [exact Hacc|]. now constructor. }
  apply Hgen. constructor.
Qed.

Lemma replace_from_Forall (P : codepoint -> Prop) (old new : pystr) :
  Forall P new ->
  forall (s : pystr) (skip : nat),
    Forall P s -> Forall P (replace_from skip old new s).
Proof.
  intros Hnew. induction s as [|c s IH]; intros skip Hs; [constructor|].
  apply Forall_cons_iff in Hs as [Hc Hs]. cbn [replace_from].
  destruct skip as [|k]; [|now apply IH].
  destruct (startswith (c :: s) old).
  - apply Forall_app. split; [exact Hnew|]. now apply IH.
  - constructor; [exact Hc|]. now apply IH.
Qed.

Lemma output_filename_base_no_slash (path : pystr) :
  no_slash (output_filename_base path).
Proof.
  unfold output_filename_base, replace. cbn [lit map list_ascii_of_string].
  apply replace_from_Forall; [constructor|]. apply basename_no_slash.
Qed.

Lemma uint_str_no_slash (d : Decimal.uint) : no_slash (uint_str d).
Proof.
  induction d; cbn [uint_str]; constructor; (discriminate || assumption).
Qed.

Lemma format_03d_no_slash (z : Z) : no_slash (format_03d z).
Proof.
  unfold format_03d. apply Forall_app. split.
  - destruct (z <? 0); repeat constructor. discriminate.
  - apply Forall_app. split; [|apply uint_str_no_slash].
    apply Forall_forall. intros c Hc. apply repeat_spec in Hc. subst c. discriminate.
Qed.

Lemma chunk_filename_no_slash (base : pystr) (index : Z) :
  no_slash base -> no_slash (chunk_filename base index).
Proof.
  intros Hbase. unfold chunk_filename.
  apply Forall_app. split; [exact Hbase|].
  apply Forall_app. split; [unfold lit; cbn; repeat constructor; discriminate|].
  apply Forall_app. split; [apply format_03d_no_slash|].
  unfold lit. cbn. repeat constructor; discriminate.
Qed.

Lemma no_slash_not_absolute (name : pystr) :
  no_slash name -> startswith name [47%N] = false.
Proof.
  intros H. destruct name as [|c name]; [reflexivity|].
  apply Forall_inv in H. cbn [startswith].
  destruct (N.eqb_spec 47 c); [congruence|reflexivity].
Qed.

Lemma str_uint_uint_str (d : Decimal.uint) : str_uint (uint_str d) = d.
Proof. induction d; cbn [uint_str str_uint]; now rewrite ?IHd. Qed.

Lemma parse_index_zeros (k : nat) (s : pystr) :
  parse_index (repeat 48%N k ++ s) = parse_index s.
Proof.
  unfold parse_index. induction k as [|k IH]; [reflexivity|].
  cbn [repeat app str_uint]. exact IH.
Qed.

(** The index can be read back from its text, however many digits it has. *)
Lemma parse_index_format (i : nat) :
  parse_index (format_03d (Z.of_nat i)) = N.of_nat i.
Proof.
  unfold format_03d.
  rewrite (proj2 (Z.ltb_ge _ _) (Nat2Z.is_nonneg i)).
  cbn [app length]. rewrite parse_index_zeros.
  unfold parse_index. rewrite str_uint_uint_str, DecimalN.Unsigned.of_to.
  rewrite <- nat_N_Z. apply Zabs2N.id.
Qed.

Lemma chunk_filename_injective (base : pystr) :
  Injective (fun i : nat => chunk_filename base (Z.of_nat i)).
Proof.
  intros i j H. unfold chunk_filename in H.
  rewrite !app_assoc in H. apply app_inv_tail in H.
  rewrite <- !app_assoc in H. do 2 apply app_inv_head in H.
  apply Nat2N.inj. rewrite <- !parse_index_format. now rewrite H.
Qed.

Section ChunkFiles.
Context {rt : PyRuntime}.

Lemma emitted_filenames_seq (path : pystr) (lines : list (option json)) :
  emitted_filenames path (split_and_process_jsonl path lines)
  = map (fun i : nat => chunk_filename (output_filename_base path) (Z.of_nat i))
        (seq 0 (length (written (fst (split_and_process_jsonl path lines))))).
Proof.
  unfold emitted_filenames.
  rewrite <- (map_map fst (chunk_filename (output_filename_base path))).
  now rewrite (proj2 (split_written path lines)), map_map.
Qed.

(** X4.  Whatever the path of the input, every chunk file is created
    directly in [remap-my-rag-source-data/processed/json_chunks/]: its name
    holds no slash, so it cannot leave that directory. *)
Theorem chunk_files_stay_in_json_chunks :
  forall (path : pystr) (lines : list (option json)),
    map fst (emitted_files path (split_and_process_jsonl path lines))
    = map (fun name => lit "remap-my-rag-source-data/processed/json_chunks/" ++ name)
          (emitted_filenames path (split_and_process_jsonl path lines))
    /\ Forall no_slash (emitted_filenames path (split_and_process_jsonl path lines)).
Proof.
  intros path lines. unfold emitted_files, emitted_filenames.
  rewrite !map_map. split.
  - apply map_ext. intros [index chunk]. cbn [fst write_json_chunk].
    unfold path_join at 1.
    rewrite no_slash_not_absolute
      by (apply chunk_filename_no_slash, output_filename_base_no_slash).
    reflexivity.
  - apply Forall_map, Forall_forall. intros w _.
    apply chunk_filename_no_slash, output_filename_base_no_slash.
Qed.

(** X5.  The files of one call have pairwise distinct names, however many
    there are, and the number of a chunk can be read back from the digits of
    its name: no call overwrites a file it has written. *)
Theorem chunk_names_distinct :
  forall (path : pystr) (lines : list (option json)),
    NoDup (emitted_filenames path (split_and_process_jsonl path lines))
    /\ (forall (k : nat) (name : pystr),
          nth_error (emitted_filenames path (split_and_process_jsonl path lines)) k
          = Some name ->
          name = output_filename_base path ++ lit "_part_"
                 ++ format_03d (Z.of_nat k) ++ lit ".txt"
          /\ parse_index (format_03d (Z.of_nat k)) = N.of_nat k).
Proof.
  intros path lines. split.
  - rewrite emitted_filenames_seq.
    apply Injective_map_NoDup; [apply chunk_filename_injective|apply seq_NoDup].
  - intros k name Hk. split; [|apply parse_index_format].
    rewrite emitted_filenames_seq, nth_error_map, nth_error_seq in Hk.
    destruct (_ <? _)%nat; [|discriminate]. now injection Hk as <-.
Qed.

End ChunkFiles.

(** * Further properties of the splitter *)

Section SplitterMore.
Context {rt : PyRuntime}.

(** Once something is written, the chunk at hand is never empty. *)
Lemma process_line_pending (path : pystr) (st st' : splitter) (n : Z)
  (line : option json) :
  process_line path st n line = Ok st' ->
  written st = [] \/ output_data_list st <> [] ->
  written st' = [] \/ output_data_list st' <> [].
Proof.
  intros Hstep Hpend. destruct line as [v|].
  - destruct v as [| | | | | |record]; try discriminate Hstep.
    cbn [process_line] in Hstep. destruct (encoded_len _); [|discriminate].
    destruct (_ && _); injection Hstep as <-; cbn [written output_data_list].
    + right. discriminate.
    + right. intros H. apply app_eq_nil in H as [_ H]. discriminate.
  - injection Hstep as <-. exact Hpend.
Qed.

Lemma for_each_line_pending (path : pystr) (lines : list (option json)) :
  forall (st : splitter) (n : Z),
    written st = [] \/ output_data_list st <> [] ->
    written (fst (for_each_line path st n lines)) = []
    \/ output_data_list (fst (for_each_line path st n lines)) <> [].
Proof.
  induction lines as [|line lines IH]; intros st n Hpend; [exact Hpend|].
  cbn [for_each_line].
  destruct (process_line path st n line) as [st'|e] eqn:Hstep; [|exact Hpend].
  apply IH. eapply process_line_pending; eassumption.
Qed.

Lemma emitted_chunks_nonempty (path : pystr) (lines : list (option json)) :
  Forall (fun chunk => chunk <> [])
         (emitted_chunks (split_and_process_jsonl path lines)).
Proof.
  unfold emitted_chunks. apply Forall_map.
  eapply Forall_impl; [|exact (proj1 (split_written path lines))].
  intros w [_ Hne]. exact Hne.
Qed.

(** X6.  No chunk file is ever written empty.  When the call returns, its
    last line of output reports [chunk_file_index + 1] files; that is the
    number of files written whenever the input held a record, but an input
    with no record (empty, or malformed lines only) writes no file and is
    still reported as one. *)
Theorem files_written_and_reported :
  forall (path : pystr) (lines : list (option json)),
    Forall (fun chunk => chunk <> [])
           (emitted_chunks (split_and_process_jsonl path lines))
    /\ (snd (split_and_process_jsonl path lines) = None ->
        last (printed (fst (split_and_process_jsonl path lines))) []
        = lit "Successfully split into "
          ++ str_int (chunk_file_index (fst (split_and_process_jsonl path lines)) + 1)
          ++ lit " smaller RAG files."
        /\ (narratives_of path lines <> [] ->
            Z.of_nat (length (written (fst (split_and_process_jsonl path lines))))
            = chunk_file_index (fst (split_and_process_jsonl path lines)) + 1)
        /\ (narratives_of path lines = [] ->
            written (fst (split_and_process_jsonl path lines)) = []
            /\ chunk_file_index (fst (split_and_process_jsonl path lines)) + 1 = 1)).
Proof.
  intros path lines. split; [apply emitted_chunks_nonempty|].
  unfold split_and_process_jsonl.
  match goal with
  | |- context [for_each_line path ?s 0 lines] =>
      pose proof (for_each_line_pending path lines s 0 (or_introl eq_refl)) as Hpend;
      pose proof (for_each_line_conserves path lines s) as Hcons;
      destruct (for_each_line path s 0 lines) as [st e] eqn:Hrun;
      pose proof (for_each_line_inv path lines s st 0 e (initial_inv _) Hrun)
        as [Hsize Hpos Hcur Hwr Hidx Hseq]
  end.
  cbn [fst] in Hpend. destruct e as [e|]; [discriminate|]. intros _.
  specialize (Hcons st 0 Hrun). cbn [written output_data_list concat map app] in Hcons.
  cbn [fst printed chunk_file_index written]. split; [apply last_last|].
  destruct (output_data_list st) as [|t rest] eqn:Hodl.
  - destruct Hpend as [Hw|Hne]; [|congruence].
    rewrite Hw in *. cbn in Hcons. split; [congruence|].
    intros _. split; [reflexivity|]. rewrite Hidx. reflexivity.
  - split.
    + intros _. rewrite length_app, Hidx. cbn [length]. lia.
    + intros Hnil. rewrite Hnil in Hcons.
      apply app_eq_nil in Hcons as [_ Hcons]. discriminate.
Qed.

Lemma sealed_prefix (cs ds : list (list pystr)) :
  sealed_when_full (cs ++ ds) -> sealed_when_full cs.
Proof.
  induction cs as [|c cs IH]; [constructor|].
  cbn [app sealed_when_full]. intros [Hc Hrest]. split; [|now apply IH].
  destruct cs as [|d cs]; [exact I|exact Hc].
Qed.

Lemma sealed_snoc (cs : list (list pystr)) (c : list pystr) (t : pystr) :
  sealed_when_full (cs ++ [c]) ->
  MAX_JSON_CHUNK_SIZE_BYTES < chunk_byte_size c + utf8_len t ->
  sealed_when_full ((cs ++ [c]) ++ [[t]]).
Proof.
  intros Hs Ht. induction cs as [|x cs IH].
  - cbn. repeat split. exact Ht.
  - cbn [app sealed_when_full] in *. destruct Hs as [Hx Hrest].
    split; [|now apply IH].
    destruct cs as [|y cs]; exact Hx.
Qed.

Lemma sealed_grow (cs : list (list pystr)) (c : list pystr) (t : pystr) :
  sealed_when_full (cs ++ [c]) ->
  cs = [] \/ c <> [] ->
  sealed_when_full (cs ++ [c ++ [t]]).
Proof.
  intros Hs Hne. induction cs as [|x cs IH].
  - cbn. auto.
  - assert (Hc : c <> []) by (destruct Hne as [H|H]; [discriminate|exact H]).
    cbn [app sealed_when_full] in *. destruct Hs as [Hx Hrest].
    split; [|apply IH; auto].
    destruct cs as [|y cs]; [|exact Hx].
    cbn [app] in *. destruct c as [|u c]; [congruence|exact Hx].
Qed.

Lemma process_line_sealed (path : pystr) (st st' : splitter) (n : Z)
  (line : option json) :
  splitter_inv st ->
  written st = [] \/ output_data_list st <> [] ->
  process_line path st n line = Ok st' ->
  sealed_when_full (map snd (written st) ++ [output_data_list st]) ->
  sealed_when_full (map snd (written st') ++ [output_data_list st']).
Proof.
  intros Hinv Hpend Hstep Hs. destruct line as [v|]; cycle 1.
  { injection Hstep as <-. exact Hs. }
  destruct v as [| | | | | |record]; try discriminate Hstep.
  cbn [process_line] in Hstep. unfold encoded_len in Hstep.
  destruct (encodable _); [|discriminate].
  destruct (_ && _) eqn:E; injection Hstep as <-; cbn [written output_data_list].
  - apply andb_true_iff in E as [E _]. rewrite Z.gtb_ltb in E. apply Z.ltb_lt in E.
    rewrite map_app. cbn [map snd app]. apply sealed_snoc; [exact Hs|].
    rewrite <- (inv_size st Hinv). exact E.
  - apply sealed_grow; [exact Hs|].
    destruct Hpend as [Hw|Hne]; [left; now rewrite Hw|right; exact Hne].
Qed.

Lemma for_each_line_sealed (path : pystr) (lines : list (option json)) :
  forall (st : splitter) (n : Z),
    splitter_inv st ->
    written st = [] \/ output_data_list st <> [] ->
    sealed_when_full (map snd (written st) ++ [output_data_list st]) ->
    sealed_when_full
      (map snd (written (fst (for_each_line path st n lines)))
       ++ [output_data_list (fst (for_each_line path st n lines))]).
Proof.
  induction lines as [|line lines IH]; intros st n Hinv Hpend Hs; [exact Hs|].
  cbn [for_each_line].
  destruct (process_line path st n line) as [st'|e] eqn:Hstep; [|exact Hs].
  apply IH.
  - eapply process_line_inv; eassumption.
  - eapply process_line_pending; eassumption.
  - eapply process_line_sealed; eassumption.
Qed.

Lemma split_sealed (path : pystr) (lines : list (option json)) :
  sealed_when_full (emitted_chunks (split_and_process_jsonl path lines)).
Proof.
  unfold emitted_chunks, split_and_process_jsonl.
  match goal with
  | |- context [for_each_line path ?s 0 lines] =>
      pose proof (for_each_line_sealed path lines s 0 (initial_inv _)
                    (or_introl eq_refl) (conj I I)) as Hs;
      destruct (for_each_line path s 0 lines) as [st e]
  end.
  cbn [fst] in Hs. destruct e as [e|]; cbn [fst written].
  - eapply sealed_prefix. exact Hs.
  - destruct (output_data_list st) as [|t rest].
    + eapply sealed_prefix. exact Hs.
    + rewrite map_app. exact Hs.
Qed.

Lemma sealed_nth (chunks : list (list pystr)) :
  sealed_when_full chunks ->
  forall (k : nat) (chunk next : list pystr),
    nth_error chunks k = Some chunk ->
    nth_error chunks (S k) = Some next ->
    MAX_JSON_CHUNK_SIZE_BYTES < chunk_byte_size chunk + utf8_len (hd [] next).
Proof.
  induction chunks as [|c chunks IH]; intros Hs k chunk next Hk Hn.
  - destruct k; discriminate.
  - cbn [sealed_when_full] in Hs. destruct Hs as [Hc Hrest].
    destruct k as [|k].
    + injection Hk as <-. cbn [nth_error] in Hn.
      destruct chunks as [|d chunks]; [discriminate|].
      injection Hn as <-. exact Hc.
    + cbn [nth_error] in Hk, Hn. eapply IH; eassumption.
Qed.

(** X7.  A chunk is sealed only when it has to be: every emitted chunk that
    is followed by another one, taken together with the first narrative of
    that next chunk, exceeds the ceiling.  No two neighbouring chunks could
    have been merged up to that narrative. *)
Theorem chunks_sealed_only_when_full :
  forall (path : pystr) (lines : list (option json)) (k : nat)
         (chunk next : list pystr),
    nth_error (emitted_chunks (split_and_process_jsonl path lines)) k = Some chunk ->
    nth_error (emitted_chunks (split_and_process_jsonl path lines)) (S k) = Some next ->
    MAX_JSON_CHUNK_SIZE_BYTES < chunk_byte_size chunk + utf8_len (hd [] next)
    /\ next <> [].
Proof.
  intros path lines k chunk next Hk Hn. split.
  - eapply sealed_nth; [apply split_sealed|exact Hk|exact Hn].
  - pose proof (emitted_chunks_nonempty path lines) as Hne.
    rewrite Forall_forall in Hne. apply Hne. eapply nth_error_In. exact Hn.
Qed.

End SplitterMore.

Section SplitterFailure.
Context {rt : PyRuntime}.

Lemma two_oversized_chunks (path : pystr) (record : list (pystr * json)) :
  encodable (process_json_record record (basename path)) = true ->
  MAX_JSON_CHUNK_SIZE_BYTES < utf8_len (process_json_record record (basename path)) ->
  emitted_chunks (split_and_process_jsonl path (repeat (Some (JDict record)) 2))
  = [[process_json_record record (basename path)];
     [process_json_record record (basename path)]].
Proof.
  intros Henc Hbig. unfold emitted_chunks. rewrite oversized_run.
  - rewrite narratives_of_repeat. reflexivity.
  - apply Forall_forall. intros line Hin. apply repeat_spec in Hin. subst line.
    split; assumption.
Qed.

(** The exception a line that does not pass raises. *)
Lemma process_line_fails (path : pystr) (st : splitter) (n : Z) (line : option json) :
  ~ line_passes path line ->
  process_line path st n line
  = Raise (match line with
           | Some (JDict _) => UnicodeEncodeError
           | _ => AttributeError
           end).
Proof.
  intros Hbad. destruct line as [v|]; [|exfalso; apply Hbad; exact I].
  destruct v as [| | | | | |record]; try reflexivity.
  cbn [process_line line_passes] in *. unfold encoded_len.
  destruct (encodable _); [exfalso; now apply Hbad|reflexivity].
Qed.

(** X8.  The first line that is valid JSON but no object (an
    [AttributeError]) or whose narrative has no UTF-8 encoding (a
    [UnicodeEncodeError]) ends the call there: the lines after it are never
    read, the narratives of the lines before it are those of the chunks
    already written followed by those of the chunk at hand, and that chunk is
    not written.  So whenever a record came before the failing line, at least
    one narrative is lost. *)
Theorem failing_line_ends_call :
  forall (path : pystr) (before : list (option json)) (bad : option json)
         (after : list (option json)),
    Forall (line_passes path) before ->
    ~ line_passes path bad ->
    split_and_process_jsonl path (before ++ bad :: after)
    = split_and_process_jsonl path (before ++ [bad])
    /\ snd (split_and_process_jsonl path (before ++ bad :: after))
       = Some (match bad with
               | Some (JDict _) => UnicodeEncodeError
               | _ => AttributeError
               end)
    /\ concat (emitted_chunks (split_and_process_jsonl path (before ++ bad :: after)))
       ++ output_data_list (fst (split_and_process_jsonl path (before ++ bad :: after)))
       = narratives_of path before
    /\ (narratives_of path before <> [] ->
        output_data_list (fst (split_and_process_jsonl path (before ++ bad :: after)))
        <> []).
Proof.
  intros path before bad after Hpass Hbad.
  assert (Hrun : forall rest,
             split_and_process_jsonl path (before ++ bad :: rest)
             = (fst (for_each_line path
                       {| current_chunk_size := 0; chunk_file_index := 0;
                          output_data_list := []; written := [];
                          printed := [lit "Starting splitting and cleaning of "
                                      ++ basename path ++ lit "..."] |} 0 before),
                Some (match bad with
                      | Some (JDict _) => UnicodeEncodeError
                      | _ => AttributeError
                      end))).
  { intros rest. unfold split_and_process_jsonl.
    rewrite for_each_line_app by (now apply for_each_line_passes).
    cbn [for_each_line]. rewrite process_line_fails by exact Hbad. reflexivity. }
  rewrite !Hrun. split; [reflexivity|]. split; [reflexivity|].
  cbn [fst]. unfold emitted_chunks. cbn [fst].
  match goal with
  | |- context [for_each_line path ?s 0 before] =>
      pose proof (for_each_line_passes path before Hpass s 0) as Hret;
      pose proof (for_each_line_pending path before s 0 (or_introl eq_refl)) as Hpend;
      pose proof (for_each_line_conserves path before s) as Hcons;
      destruct (for_each_line path s 0 before) as [st e] eqn:Hloop
  end.
  cbn [fst snd] in *. subst e. specialize (Hcons st 0 Hloop).
  cbn [written output_data_list concat map app] in Hcons.
  split; [exact Hcons|].
  intros Hne Hnil. destruct Hpend as [Hw|Hodl]; [|congruence].
  rewrite Hw, Hnil in Hcons. cbn in Hcons. congruence.
Qed.

End SplitterFailure.

Lemma failing_line_ends_call_witness :
  let path := lit "data.jsonl" in
  let before := [Some (JDict [(lit "a", JInt 1)]); None] in
  let bad := Some (JList [JInt 5]) in
  let after := [Some (JDict [(lit "a", JInt 2)])] in
  (Forall (line_passes (rt := ascii_runtime) path) before
   /\ ~ line_passes (rt := ascii_runtime) path bad)
  /\ split_and_process_jsonl (rt := ascii_runtime) path (before ++ bad :: after)
     = ({| current_chunk_size := 37; chunk_file_index := 0;
           output_data_list := [lit "SOURCE FILE: data.jsonl. The A is: 1."];
           written := [];
           printed := [lit "Starting splitting and cleaning of data.jsonl...";
                       lit "Skipped malformed JSON line in data.jsonl at line 1."] |},
        Some AttributeError)
  /\ output_data_list
       (fst (split_and_process_jsonl (rt := ascii_runtime) path (before ++ bad :: after)))
     <> [].
Proof.
  intros path before bad after.
  assert (Hpass : Forall (line_passes (rt := ascii_runtime) path) before)
    by (repeat constructor).
  assert (Hbad : ~ line_passes (rt := ascii_runtime) path bad) by (intros H; exact H).
  split; [exact (conj Hpass Hbad)|]. split; [reflexivity|].
  apply (proj2 (proj2 (proj2 (failing_line_ends_call (rt := ascii_runtime)
                                path before bad after Hpass Hbad)))).
  discriminate.
Defined.

Lemma chunks_sealed_only_when_full_witness :
  let path := lit "d.jsonl" in
  let lines := repeat (Some (JDict (big_record 41943040))) 2 in
  let t := process_json_record (rt := ascii_runtime) (big_record 41943040)
             (basename path) in
  (nth_error (emitted_chunks (split_and_process_jsonl (rt := ascii_runtime) path lines)) 0
   = Some [t]
   /\ nth_error (emitted_chunks (split_and_process_jsonl (rt := ascii_runtime) path lines)) 1
      = Some [t])
  /\ MAX_JSON_CHUNK_SIZE_BYTES < chunk_byte_size [t] + utf8_len (hd [] [t]).
Proof.
  intros path lines t.
  assert (Henc : encodable t = true)
    by (apply big_narrative_encodable; reflexivity).
  assert (Hbig : MAX_JSON_CHUNK_SIZE_BYTES < utf8_len t)
    by (unfold t; rewrite big_narrative_len; reflexivity).
  pose proof (two_oversized_chunks (rt := ascii_runtime) path
                (big_record 41943040) Henc Hbig) as Hchunks.
  fold t lines in Hchunks.
  assert (H0 : nth_error (emitted_chunks
                            (split_and_process_jsonl (rt := ascii_runtime) path lines)) 0
               = Some [t]) by (rewrite Hchunks; reflexivity).
  assert (H1 : nth_error (emitted_chunks
                            (split_and_process_jsonl (rt := ascii_runtime) path lines)) 1
               = Some [t]) by (rewrite Hchunks; reflexivity).
  split; [exact (conj H0 H1)|].
  exact (proj1 (chunks_sealed_only_when_full (rt := ascii_runtime) path lines 0
                  [t] [t] H0 H1)).
Defined.

(** * The base name of the chunk files *)

Lemma basename_fold_no_slash (name acc : pystr) :
  no_slash name ->
  fold_left (fun acc c => if N.eqb c 47 then [] else acc ++ [c]) name acc
  = acc ++ name.
Proof.
  revert acc. induction name as [|c name IH]; intros acc Hname.
  - now rewrite app_nil_r.
  - apply Forall_cons_iff in Hname as [Hc Hname]. cbn [fold_left].
    destruct (N.eqb_spec c 47); [contradiction|].
    rewrite IH by exact Hname. now rewrite <- app_assoc.
Qed.

Lemma basename_after_slash (dir name : pystr) :
  no_slash name -> basename (dir ++ 47%N :: name) = name.
Proof.
  intros Hname. unfold basename. rewrite fold_left_app. cbn [fold_left].
  rewrite N.eqb_refl. now rewrite basename_fold_no_slash.
Qed.

Lemma basename_bare (name : pystr) : no_slash name -> basename name = name.
Proof. intros Hname. unfold basename. now rewrite basename_fold_no_slash. Qed.

(** No occurrence of [.jsonl] starts in a text and ends in a [.jsonl] put
    after it: the extension has one dot only, at its start. *)
Lemma jsonl_no_straddle (stem : pystr) :
  stem <> [] ->
  startswith (stem ++ lit ".jsonl") (lit ".jsonl") = startswith stem (lit ".jsonl").
Proof.
  intros Hne.
  destruct stem as [|c1 [|c2 [|c3 [|c4 [|c5 [|c6 stem]]]]]]; [congruence|..];
    cbn -[N.eqb];
    repeat match goal with
           | |- context [N.eqb ?a ?b] => is_var b; destruct (N.eqb a b)
           end;
    reflexivity.
Qed.

Lemma replace_jsonl_suffix (stem : pystr) :
  contains stem (lit ".jsonl") = false ->
  replace (stem ++ lit ".jsonl") (lit ".jsonl") [] = stem.
Proof.
  unfold replace. cbn [lit map list_ascii_of_string].
  change [N_of_ascii "."; N_of_ascii "j"; N_of_ascii "s"; N_of_ascii "o";
          N_of_ascii "n"; N_of_ascii "l"] with (lit ".jsonl").
  induction stem as [|c stem IH]; intros Hno; [reflexivity|].
  cbn [contains] in Hno. apply orb_false_iff in Hno as [Hhere Hlater].
  cbn [app replace_from].
  change (c :: stem ++ lit ".jsonl") with ((c :: stem) ++ lit ".jsonl").
  rewrite jsonl_no_straddle by discriminate. rewrite Hhere.
  f_equal. now apply IH.
Qed.

Section BaseName.
Context {rt : PyRuntime}.

(** X9.  For an input file [<stem>.jsonl], in any directory, whose stem
    holds no slash and no further [.jsonl], the chunk files are named after
    the stem: chunk [k] is [<stem>_part_<k, three digits at least>.txt]. *)
Theorem chunk_files_named_after_stem :
  forall (dir stem : pystr) (lines : list (option json)) (k : nat) (name : pystr),
    no_slash stem ->
    contains stem (lit ".jsonl") = false ->
    nth_error (emitted_filenames (dir ++ 47%N :: stem ++ lit ".jsonl")
                 (split_and_process_jsonl (dir ++ 47%N :: stem ++ lit ".jsonl") lines)) k
    = Some name ->
    output_filename_base (dir ++ 47%N :: stem ++ lit ".jsonl") = stem
    /\ output_filename_base (stem ++ lit ".jsonl") = stem
    /\ name = stem ++ lit "_part_" ++ format_03d (Z.of_nat k) ++ lit ".txt".
Proof.
  intros dir stem lines k name Hstem Hno Hk.
  assert (Hfull : no_slash (stem ++ lit ".jsonl")).
  { apply Forall_app. split; [exact Hstem|].
    unfold lit. cbn. repeat constructor; discriminate. }
  assert (Hbase : output_filename_base (dir ++ 47%N :: stem ++ lit ".jsonl") = stem).
  { unfold output_filename_base. rewrite basename_after_slash by exact Hfull.
    now apply replace_jsonl_suffix. }
  split; [exact Hbase|]. split.
  - unfold output_filename_base. rewrite basename_bare by exact Hfull.
    now apply replace_jsonl_suffix.
  - apply emitted_filenames_nth in Hk. rewrite Hbase in Hk. exact Hk.
Qed.

End BaseName.

Lemma chunk_files_named_after_stem_witness :
  let dir := lit "remap-my-rag-source-data/raw/json" in
  let stem := lit "large_raw_data" in
  let lines := [Some (JDict [(lit "a", JInt 1)])] in
  (no_slash stem /\ contains stem (lit ".jsonl") = false
   /\ nth_error (emitted_filenames (dir ++ 47%N :: stem ++ lit ".jsonl")
                   (split_and_process_jsonl (rt := ascii_runtime)
                      (dir ++ 47%N :: stem ++ lit ".jsonl") lines)) 0
      = Some (lit "large_raw_data_part_000.txt"))
  /\ output_filename_base (dir ++ 47%N :: stem ++ lit ".jsonl") = stem.
Proof.
  intros dir stem lines.
  assert (Hstem : no_slash stem)
    by (unfold stem, lit; cbn; repeat constructor; discriminate).
  assert (Hno : contains stem (lit ".jsonl") = false) by reflexivity.
  assert (Hk : nth_error (emitted_filenames (dir ++ 47%N :: stem ++ lit ".jsonl")
                            (split_and_process_jsonl (rt := ascii_runtime)
                               (dir ++ 47%N :: stem ++ lit ".jsonl") lines)) 0
               = Some (lit "large_raw_data_part_000.txt")) by reflexivity.
  split; [exact (conj Hstem (conj Hno Hk))|].
  exact (proj1 (chunk_files_named_after_stem (rt := ascii_runtime)
                  dir stem lines 0 _ Hstem Hno Hk)).
Defined.

(** * Further properties of the redaction *)

(** An occurrence cannot start among code points that all differ from its
    first one. *)
Lemma contains_app_skip (u rest old' : pystr) (h : codepoint) :
  Forall (fun x => x <> h) u ->
  contains (u ++ rest) (h :: old') = contains rest (h :: old').
Proof.
  induction 1 as [|x u Hx _ IH]; [reflexivity|].
  cbn [app contains startswith].
  destruct (N.eqb_spec h x); [congruence|]. exact IH.
Qed.

(** What the replaced text starts with, the original started with, as long
    as the first code point of the replacement is not in it. *)
Lemma startswith_replace_from (old new' : pystr) (n0 : codepoint) :
  forall (s p : pystr),
    Forall (fun x => x <> n0) p ->
    startswith (replace_from 0 old (n0 :: new') s) p = true ->
    startswith s p = true.
Proof.
  induction s as [|c s IH]; intros p Hp Hstart.
  - destruct p; [reflexivity|discriminate].
  - destruct p as [|x p]; [reflexivity|].
    apply Forall_cons_iff in Hp as [Hx Hp].
    cbn [replace_from] in Hstart. destruct (startswith (c :: s) old).
    + cbn [app startswith] in Hstart.
      destruct (N.eqb_spec x n0); [congruence|discriminate].
    + cbn [startswith] in *. apply andb_true_iff in Hstart as [Hxc Hrest].
      rewrite Hxc. now apply IH.
Qed.

(** [s.replace(old, new)] leaves no occurrence of [old] when no code point
    of [new] is the first of [old] and the first of [new] is not in [old]. *)
Lemma replace_from_removes (old' new' : pystr) (h n0 : codepoint) :
  Forall (fun x => x <> h) (n0 :: new') ->
  Forall (fun x => x <> n0) old' ->
  forall (s : pystr) (skip : nat),
    contains (replace_from skip (h :: old') (n0 :: new') s) (h :: old') = false.
Proof.
  intros Hnew Hold. induction s as [|c s IH]; intros skip; [reflexivity|].
  cbn [replace_from]. destruct skip as [|k]; [|apply IH].
  destruct (startswith (c :: s) (h :: old')) eqn:Hmatch.
  - rewrite contains_app_skip by exact Hnew. apply IH.
  - cbn [contains]. rewrite IH, orb_false_r.
    destruct (startswith (c :: replace_from 0 (h :: old') (n0 :: new') s) (h :: old'))
      eqn:Hout; [|reflexivity].
    cbn [startswith] in Hout, Hmatch. apply andb_true_iff in Hout as [Hhc Hrest].
    apply (startswith_replace_from _ _ _ _ _ Hold) in Hrest.
    rewrite Hhc, Hrest in Hmatch. discriminate.
Qed.

Section RedactionMore.
Context {rt : PyRuntime}.

(** X10.  When a text holds a trigger word, the redacted text starts with
    the marker and has no occurrence of [John Smith] left, neither one that
    was there nor one put together by the replacements.  When it holds none,
    the text is returned as it is, the name with it. *)
Theorem redaction_masks_every_name :
  forall (text : pystr),
    (contains (lower text) (lit "patient") || contains (lower text) (lit "ssn") = true ->
     contains (redact text) (lit "John Smith") = false
     /\ redact text = lit "[HIPAA REDACTION APPLIED] "
                      ++ replace text (lit "John Smith") (lit "[PHI_NAME_MASKED]"))
    /\ (contains (lower text) (lit "patient") || contains (lower text) (lit "ssn") = false ->
        redact text = text).
Proof.
  intros text. unfold redact. split; intros Htrig; rewrite Htrig; [|reflexivity].
  split; [|reflexivity].
  change (lit "John Smith") with (74%N :: lit "ohn Smith").
  rewrite contains_app_skip
    by (unfold lit; cbn; repeat constructor; discriminate).
  unfold replace.
  change (lit "[PHI_NAME_MASKED]") with (91%N :: lit "PHI_NAME_MASKED]").
  apply replace_from_removes; unfold lit; cbn; repeat constructor; discriminate.
Qed.

(** X11.  For the extensions [.docx], [.pptx], [.xlsx] and [.csv] the row
    function reads the first 500 code points of the content and nothing
    else: what follows them reaches neither the output nor the test for
    trigger words. *)
Theorem parsed_content_is_truncated :
  forall (content ext : pystr),
    str_in ext [lit ".docx"; lit ".pptx"; lit ".xlsx"; lit ".csv"] = true ->
    forall (more : pystr),
      (500 <= length content)%nat ->
      process_content (content ++ more) ext = process_content content ext.
Proof.
  intros content ext Hext more Hlen. unfold process_content, slice_to.
  rewrite firstn_app.
  replace (500 - length content)%nat with 0%nat by lia.
  cbn [firstn]. rewrite app_nil_r.
  destruct (str_in ext [lit ".docx"; lit ".pptx"]) eqn:Hdoc; [reflexivity|].
  destruct (str_in ext [lit ".xlsx"; lit ".csv"]) eqn:Htab; [reflexivity|].
  unfold str_in in *. cbn [existsb] in *.
  rewrite orb_false_r in Hdoc, Htab.
  apply orb_false_iff in Hdoc as [H1 H2]. apply orb_false_iff in Htab as [H3 H4].
  rewrite H1, H2, H3, H4 in Hext. discriminate.
Qed.

End RedactionMore.

Lemma redaction_masks_every_name_witness :
  let text := lit "SSN 123: John Smith met John SmithJohn Smith" in
  (contains (lower (rt := ascii_runtime) text) (lit "patient")
   || contains (lower (rt := ascii_runtime) text) (lit "ssn") = true)
  /\ redact (rt := ascii_runtime) text
     = lit "[HIPAA REDACTION APPLIED] SSN 123: [PHI_NAME_MASKED] met [PHI_NAME_MASKED][PHI_NAME_MASKED]"
  /\ contains (redact (rt := ascii_runtime) text) (lit "John Smith") = false.
Proof.
  intros text.
  assert (Htrig : contains (lower (rt := ascii_runtime) text) (lit "patient")
                  || contains (lower (rt := ascii_runtime) text) (lit "ssn") = true)
    by reflexivity.
  split; [exact Htrig|]. split; [reflexivity|].
  exact (proj1 (proj1 (redaction_masks_every_name (rt := ascii_runtime) text) Htrig)).
Defined.

Lemma parsed_content_is_truncated_witness :
  let content := repeat 120%N 500 in
  let more := lit " patient John Smith" in
  (str_in (lit ".csv") [lit ".docx"; lit ".pptx"; lit ".xlsx"; lit ".csv"] = true
   /\ (500 <= length content)%nat)
  /\ process_content (rt := ascii_runtime) (content ++ more) (lit ".csv")
     = process_content (rt := ascii_runtime) content (lit ".csv").
Proof.
  intros content more.
  assert (Hext : str_in (lit ".csv") [lit ".docx"; lit ".pptx"; lit ".xlsx"; lit ".csv"]
                 = true) by reflexivity.
  assert (Hlen : (500 <= length content)%nat)
    by (unfold content; rewrite repeat_length; apply Nat.le_refl).
  split; [exact (conj Hext Hlen)|].
  exact (parsed_content_is_truncated (rt := ascii_runtime) content (lit ".csv")
           Hext more Hlen).
Defined.

(** * Further properties of the record normaliser *)

Section Labels.
Context {rt : PyRuntime}.

(** On ASCII code points the three case functions are decided by the
    lowercase letter alone. *)
Lemma ascii_case_by_lower (c1 c2 : codepoint) (rb1 rb2 after1 after2 : pystr) :
  is_ascii c1 = true -> is_ascii c2 = true ->
  lower_cp rb1 c1 after1 = lower_cp rb2 c2 after2 ->
  is_cased c1 = is_cased c2 /\ title_cp c1 = title_cp c2.
Proof.
  unfold lower_cp, is_cased, title_cp. intros -> ->.
  unfold ascii_isupper, ascii_islower.
  intros [= Heq]. revert Heq.
  repeat match goal with
         | |- context [N.leb ?a ?b] => destruct (N.leb_spec a b)
         end; cbn [andb orb]; intros Heq; split; try reflexivity;
    try (exfalso; lia); f_equal; lia.
Qed.

Lemma title_from_by_lower :
  forall (s1 s2 : pystr) (cased : bool) (rb1 rb2 : pystr),
    Forall (fun c => is_ascii c = true) s1 ->
    Forall (fun c => is_ascii c = true) s2 ->
    lower_from rb1 s1 = lower_from rb2 s2 ->
    title_from cased rb1 s1 = title_from cased rb2 s2.
Proof.
  induction s1 as [|c1 s1 IH]; intros s2 cased rb1 rb2 H1 H2 Hlow.
  - destruct s2 as [|c2 s2]; [reflexivity|].
    apply Forall_inv in H2. cbn [lower_from] in Hlow. unfold lower_cp in Hlow.
    rewrite H2 in Hlow. discriminate.
  - apply Forall_cons_iff in H1 as [Hc1 H1].
    destruct s2 as [|c2 s2].
    { cbn [lower_from] in Hlow. unfold lower_cp in Hlow.
      rewrite Hc1 in Hlow. discriminate. }
    apply Forall_cons_iff in H2 as [Hc2 H2].
    cbn [lower_from title_from] in *.
    assert (Hhead : lower_cp rb1 c1 s1 = lower_cp rb2 c2 s2
                    /\ lower_from (c1 :: rb1) s1 = lower_from (c2 :: rb2) s2).
    { unfold lower_cp in *. rewrite Hc1, Hc2 in *. cbn [app] in Hlow.
      injection Hlow as Hh Ht. split; [now rewrite Hh|exact Ht]. }
    destruct Hhead as [Hh Ht].
    destruct (ascii_case_by_lower c1 c2 rb1 rb2 s1 s2 Hc1 Hc2 Hh) as [Hcased Htitle].
    rewrite Hcased, Htitle, Hh. f_equal. now apply IH.
Qed.

(** X12.  The label of a field is made from its key by turning underscores
    into spaces and title-casing: keys of ASCII letters that differ only in
    the case of letters, or in having a space where the other has an
    underscore, get the same label, and with the same int, float or str value
    the same sentence. *)
Theorem labels_ignore_case_and_underscores :
  forall (key1 key2 : pystr),
    Forall (fun c => is_ascii c = true) key1 ->
    Forall (fun c => is_ascii c = true) key2 ->
    lower (replace key1 (lit "_") (lit " ")) = lower (replace key2 (lit "_") (lit " ")) ->
    title (replace key1 (lit "_") (lit " ")) = title (replace key2 (lit "_") (lit " "))
    /\ (forall value,
          is_reserved key1 = false -> is_reserved key2 = false ->
          is_int_float_str value = true ->
          rendered_sentence key1 value = rendered_sentence key2 value).
Proof.
  intros key1 key2 H1 H2 Hlow.
  assert (Hascii : forall key, Forall (fun c => is_ascii c = true) key ->
             Forall (fun c => is_ascii c = true) (replace key (lit "_") (lit " "))).
  { intros key Hkey. unfold replace. cbn [lit map list_ascii_of_string].
    apply replace_from_Forall; [repeat constructor|exact Hkey]. }
  assert (Htitle : title (replace key1 (lit "_") (lit " "))
                   = title (replace key2 (lit "_") (lit " "))).
  { unfold title. apply title_from_by_lower; auto. }
  split; [exact Htitle|].
  intros value Hr1 Hr2 Hscalar. unfold rendered_sentence.
  rewrite Hr1, Hr2, Htitle.
  destruct value; try discriminate Hscalar; reflexivity.
Qed.

End Labels.

Lemma labels_ignore_case_and_underscores_witness :
  let key1 := lit "first_name" in
  let key2 := lit "FIRST Name" in
  (Forall (fun c => is_ascii c = true) key1
   /\ Forall (fun c => is_ascii c = true) key2
   /\ lower (rt := ascii_runtime) (replace key1 (lit "_") (lit " "))
      = lower (rt := ascii_runtime) (replace key2 (lit "_") (lit " ")))
  /\ title (rt := ascii_runtime) (replace key1 (lit "_") (lit " ")) = lit "First Name"
  /\ title (rt := ascii_runtime) (replace key2 (lit "_") (lit " ")) = lit "First Name".
Proof.
  intros key1 key2.
  assert (H1 : Forall (fun c => is_ascii c = true) key1)
    by (unfold key1, lit; cbn; repeat constructor).
  assert (H2 : Forall (fun c => is_ascii c = true) key2)
    by (unfold key2, lit; cbn; repeat constructor).
  assert (Hlow : lower (rt := ascii_runtime) (replace key1 (lit "_") (lit " "))
                 = lower (rt := ascii_runtime) (replace key2 (lit "_") (lit " ")))
    by reflexivity.
  split; [exact (conj H1 (conj H2 Hlow))|]. split; [reflexivity|].
  rewrite <- (proj1 (labels_ignore_case_and_underscores (rt := ascii_runtime)
                       key1 key2 H1 H2 Hlow)).
  reflexivity.
Defined.

(** * What the splitter prints *)

Section SplitterOutput.
Context {rt : PyRuntime}.

Lemma process_line_output (path : pystr) (st st' : splitter) (n : Z)
  (line : option json) :
  process_line path st n line = Ok st' ->
  printed st' = printed st ++ map (skip_message path) (malformed_from n [line]).
Proof.
  intros Hstep. destruct line as [v|].
  - destruct v as [| | | | | |record]; try discriminate Hstep.
    cbn [process_line] in Hstep. destruct (encoded_len _); [|discriminate].
    destruct (_ && _); injection Hstep as <-; cbn; now rewrite app_nil_r.
  - injection Hstep as <-. reflexivity.
Qed.

Lemma for_each_line_output (path : pystr) (lines : list (option json)) :
  forall (st st' : splitter) (n : Z),
    for_each_line path st n lines = (st', None) ->
    printed st' = printed st ++ map (skip_message path) (malformed_from n lines).
Proof.
  induction lines as [|line lines IH]; intros st st' n Hrun.
  - injection Hrun as <-. cbn. now rewrite app_nil_r.
  - cbn [for_each_line] in Hrun.
    destruct (process_line path st n line) as [st1|e] eqn:Hstep; [|discriminate].
    rewrite (IH _ _ _ Hrun), (process_line_output _ _ _ _ _ Hstep), <- app_assoc.
    f_equal. destruct line as [v|]; cbn [malformed_from map app]; reflexivity.
Qed.

(** X13.  A call that returns has printed the opening line, then one
    warning for each malformed line and no other, in input order and with the
    position of the line counted from zero, then the closing line. *)
Theorem output_lists_malformed_lines :
  forall (path : pystr) (lines : list (option json)),
    snd (split_and_process_jsonl path lines) = None ->
    printed (fst (split_and_process_jsonl path lines))
    = [lit "Starting splitting and cleaning of " ++ basename path ++ lit "..."]
      ++ map (fun n => lit "Skipped malformed JSON line in " ++ path ++ lit " at line "
                       ++ str_int n ++ lit ".")
             (malformed_from 0 lines)
      ++ [lit "Successfully split into "
          ++ str_int (chunk_file_index (fst (split_and_process_jsonl path lines)) + 1)
          ++ lit " smaller RAG files."].
Proof.
  intros path lines. unfold split_and_process_jsonl.
  match goal with
  | |- context [for_each_line path ?s 0 lines] =>
      pose proof (for_each_line_output path lines s) as Hout;
      destruct (for_each_line path s 0 lines) as [st e] eqn:Hrun
  end.
  destruct e as [e|]; [discriminate|]. intros _.
  cbn [fst printed chunk_file_index].
  rewrite (Hout st 0 Hrun). cbn [printed]. now rewrite <- app_assoc.
Qed.

End SplitterOutput.

Lemma output_lists_malformed_lines_witness :
  let path := lit "raw/json/data.jsonl" in
  let lines := [None; Some (JDict [(lit "a", JInt 1)]); None] in
  snd (split_and_process_jsonl (rt := ascii_runtime) path lines) = None
  /\ printed (fst (split_and_process_jsonl (rt := ascii_runtime) path lines))
     = [lit "Starting splitting and cleaning of data.jsonl...";
        lit "Skipped malformed JSON line in raw/json/data.jsonl at line 0.";
        lit "Skipped malformed JSON line in raw/json/data.jsonl at line 2.";
        lit "Successfully split into 1 smaller RAG files."].
Proof.
  intros path lines.
  assert (Hret : snd (split_and_process_jsonl (rt := ascii_runtime) path lines) = None)
    by reflexivity.
  split; [exact Hret|].
  rewrite (output_lists_malformed_lines (rt := ascii_runtime) path lines Hret).
  reflexivity.
Defined.
